(** * AbsensiTSSidayu: the attendance scanner of [app.py]

    A shallow embedding of [app.py] (Flask + gspread + pandas) and the
    properties of its scan reconciliation routine.

    Modelling conventions.
    - Python [str] values are [string]s (byte strings).  [str.upper] is the
      ASCII case map, which is what Python computes on ASCII text; splitting
      on ['_'], replacing ['-'] and comparing strings are byte-wise, which
      agrees with Python on UTF-8 encoded text.
    - [datetime.datetime.now()] is an explicit argument of every function
      that reads the clock (one reading per call site).
    - The Google spreadsheet is an explicit store threaded through a state
      and exception monad, together with the lines printed on stdout.
      Python exceptions are values of [exn]; a remote call can also fail
      with an [APIError] chosen by the environment.
    - A pandas [DataFrame] with the columns Kode, Nama, Waktu is the list
      of its rows; a worksheet holds that header and such rows, and gives
      back the cells as they were written.
    - [sort_values] keeps rows of equal Waktu in their order; the
      properties below hold for any order of such rows. *)

From Stdlib Require Import ZArith List String Ascii Bool Lia.
From Stdlib Require Import Sorting.Sorted Sorting.Permutation.
Import ListNotations.

Local Open Scope string_scope.
Local Open Scope Z_scope.

(** ** Text: the [str] methods used by the program *)

Module Text.

(** [c.upper()] for one ASCII character. *)
Definition upper_char (c : ascii) : ascii :=
  let n := N_of_ascii c in
  if ((97 <=? n) && (n <=? 122))%N then ascii_of_N (n - 32) else c.

(** [s.upper()] *)
Fixpoint upper (s : string) : string :=
  match s with
  | EmptyString => EmptyString
  | String c r => String (upper_char c) (upper r)
  end.

(** [c in s] for a one-character [c] *)
Fixpoint contains (c : ascii) (s : string) : bool :=
  match s with
  | EmptyString => false
  | String d r => Ascii.eqb d c || contains c r
  end.

(** [s.split(c, 1)] when [c in s]: the text before the first [c] and the
    text after it; [None] when [c] does not occur. *)
Fixpoint split1 (c : ascii) (s : string) : option (string * string) :=
  match s with
  | EmptyString => None
  | String d r =>
      if Ascii.eqb d c then Some (EmptyString, r)
      else match split1 c r with
           | Some (a, b) => Some (String d a, b)
           | None => None
           end
  end.

(** [s.replace(a, b)] for one-character [a] and [b] *)
Fixpoint replace_char (a b : ascii) (s : string) : string :=
  match s with
  | EmptyString => EmptyString
  | String d r => String (if Ascii.eqb d a then b else d) (replace_char a b r)
  end.

(** [s.replace(', ', '_')]: every occurrence of comma-space, scanned from
    the left without overlap, becomes one underscore. *)
Fixpoint replace_comma_space (s : string) : string :=
  match s with
  | EmptyString => EmptyString
  | String c r =>
      match r with
      | String d r' =>
          if Ascii.eqb c "," && Ascii.eqb d " "
          then String "_" (replace_comma_space r')
          else String c (replace_comma_space r)
      | EmptyString => String c EmptyString
      end
  end.

Definition digits : list ascii :=
  ["0"; "1"; "2"; "3"; "4"; "5"; "6"; "7"; "8"; "9"]%char.

(** The decimal digit of [n] at the units place, as a character. *)
Definition digit (n : Z) : ascii := nth (Z.to_nat (n mod 10)) digits "0"%char.

(** Zero-padded decimal of width 2 ([%d], [%m], [%H], [%M], [%S]). *)
Definition pad2 (n : Z) : string :=
  String (digit (n / 10)) (String (digit n) EmptyString).

(** Zero-padded decimal of width 4 ([%Y] for the years 1000..9999). *)
Definition pad4 (n : Z) : string :=
  String (digit (n / 1000)) (String (digit (n / 100))
    (String (digit (n / 10)) (String (digit n) EmptyString))).

End Text.

(** ** Clock: [datetime] values and [strftime] *)

Module Clock.

Record datetime : Type := mkDatetime {
  year : Z; month : Z; day : Z;
  hour : Z; minute : Z; second : Z
}.

Definition is_leap (y : Z) : bool :=
  (y mod 4 =? 0) && (negb (y mod 100 =? 0) || (y mod 400 =? 0)).

(** number of days before January 1st of year [y] *)
Definition days_before_year (y : Z) : Z :=
  let p := y - 1 in p * 365 + p / 4 - p / 100 + p / 400.

Definition days_in_month (y m : Z) : Z :=
  if m =? 2 then (if is_leap y then 29 else 28)
  else if (m =? 4) || (m =? 6) || (m =? 9) || (m =? 11) then 30 else 31.

(** number of days in year [y] before the first day of month [m] *)
Definition days_before_month (y m : Z) : Z :=
  fold_right Z.add 0
    (map (days_in_month y) (map Z.of_nat (seq 1 (Z.to_nat (m - 1))))).

(** proleptic Gregorian ordinal, January 1st of year 1 is day 1 *)
Definition toordinal (t : datetime) : Z :=
  days_before_year (year t) + days_before_month (year t) (month t) + day t.

(** [t.weekday()]: Monday is 0, Sunday is 6 *)
Definition weekday (t : datetime) : Z := (toordinal t + 6) mod 7.

(** The [LC_TIME] locale in force after the start-up code of [app.py]. *)
Inductive locale : Type := id_ID | C_locale.

(** The start-up code: [id_ID.utf8], then [id_ID], then the (English)
    default when neither is installed. *)
Definition setlocale (has_id_ID_utf8 has_id_ID : bool) : locale :=
  if has_id_ID_utf8 then id_ID
  else if has_id_ID then id_ID
  else C_locale.

(** [%A]: the full weekday name of the locale *)
Definition day_name (l : locale) (wd : Z) : string :=
  match l with
  | id_ID =>
      nth (Z.to_nat wd)
        ["Senin"; "Selasa"; "Rabu"; "Kamis"; "Jumat"; "Sabtu"; "Minggu"] ""
  | C_locale =>
      nth (Z.to_nat wd)
        ["Monday"; "Tuesday"; "Wednesday"; "Thursday"; "Friday";
         "Saturday"; "Sunday"] ""
  end.

(** [%d-%m-%Y] *)
Definition strftime_dmY (t : datetime) : string :=
  Text.pad2 (day t) ++ "-" ++ Text.pad2 (month t) ++ "-" ++ Text.pad4 (year t).

(** [t.strftime("%A, %d-%m-%Y")] *)
Definition strftime_A_dmY (l : locale) (t : datetime) : string :=
  day_name l (weekday t) ++ ", " ++ strftime_dmY t.

(** [t.strftime("%H:%M:%S")] *)
Definition strftime_HMS (t : datetime) : string :=
  Text.pad2 (hour t) ++ ":" ++ Text.pad2 (minute t) ++ ":"
    ++ Text.pad2 (second t).

(** A date of the supported calendar range with four-digit years. *)
Definition valid_date (t : datetime) : Prop :=
  1000 <= year t <= 9999 /\ 1 <= month t <= 12 /\ 1 <= day t <= 31.

Definition same_calendar_day (a b : datetime) : Prop :=
  year a = year b /\ month a = month b /\ day a = day b.

End Clock.

(** ** The partition namer *)

(** [get_weekly_worksheet_name()], with the clock reading [today] and the
    locale made explicit. *)
Definition get_weekly_worksheet_name (l : Clock.locale) (today : Clock.datetime)
  : string :=
  let formatted_string := Clock.strftime_A_dmY l today in
  Text.replace_comma_space (Text.upper formatted_string).


(** ** The remote store and the effects of the program *)

(** A row of a partition: the three cells under Kode, Nama and Waktu. *)
Record Row : Type := mkRow { Kode : string; Nama : string; Waktu : string }.

(** A [DataFrame] with the columns Kode, Nama, Waktu, in row order. *)
Definition DataFrame : Type := list Row.

Module Gspread.

(** The Python exceptions that occur in the program. *)
Inductive exn : Type :=
| SpreadsheetNotFound
| WorksheetNotFound (title : string)
| APIError (msg : string)
| AttributeError (msg : string)
| IndexError (msg : string).

(** [str(e)] *)
Definition exn_str (e : exn) : string :=
  match e with
  | SpreadsheetNotFound => ""
  | WorksheetNotFound t => t
  | APIError m => m
  | AttributeError m => m
  | IndexError m => m
  end.

(** The value grid of a worksheet: nothing written yet, or the header
    row followed by the records. *)
Inductive grid : Type :=
| Blank
| Table (records : list Row).

(** A spreadsheet: its worksheets by title, in tab order. *)
Definition spreadsheet : Type := list (string * grid).

(** The world: the spreadsheet titled [SHEET_TITLE] when there is one, and
    the lines printed so far. *)
Record world : Type := mkWorld {
  store : option spreadsheet;
  stdout : list string
}.

Inductive result (A : Type) : Type :=
| Ok (a : A)
| Raise (e : exn).
Arguments Ok {A} a.
Arguments Raise {A} e.

(** State and exception monad over the world. *)
Definition M (A : Type) : Type := world -> result A * world.

Definition ret {A} (a : A) : M A := fun w => (Ok a, w).

Definition bind {A B} (m : M A) (k : A -> M B) : M B :=
  fun w => match m w with
           | (Ok a, w') => k a w'
           | (Raise e, w') => (Raise e, w')
           end.

Definition raise {A} (e : exn) : M A := fun w => (Raise e, w).

(** [try: x = body / except <handled>: handler (which returns) / rest]:
    [handler e] is [None] when the except clause does not match [e]. *)
Definition try_except {A B} (body : M A) (handler : exn -> option (M B))
    (rest : A -> M B) : M B :=
  fun w => match body w with
           | (Ok a, w') => rest a w'
           | (Raise e, w') =>
               match handler e with
               | Some h => h w'
               | None => (Raise e, w')
               end
           end.

Definition print (line : string) : M unit :=
  fun w => (Ok tt, mkWorld (store w) (stdout w ++ [line])%list).

(** An authorised client; [None] stands for Python's [None]. *)
Inductive client : Type := Client.

(** Spreadsheet and worksheet handles. *)
Inductive spreadsheet_handle : Type := Spreadsheet.
Definition worksheet_handle : Type := string.

(** A remote call fails with [APIError msg] when the environment says so. *)
Definition remote {A} (fault : option string) (call : M A) : M A :=
  match fault with
  | Some msg => raise (APIError msg)
  | None => call
  end.

Fixpoint lookup (title : string) (sh : spreadsheet) : option grid :=
  match sh with
  | [] => None
  | (t, ws) :: rest => if String.eqb t title then Some ws else lookup title rest
  end.

Fixpoint update (title : string) (ws : grid) (sh : spreadsheet)
  : spreadsheet :=
  match sh with
  | [] => []
  | (t, old) :: rest =>
      if String.eqb t title then (t, ws) :: rest
      else (t, old) :: update title ws rest
  end.

(** [gc.open(title)]: raises [SpreadsheetNotFound] when no spreadsheet has
    the title; the store of the world is the spreadsheet with the one title
    the program asks for. *)
Definition open (fault : option string) (gc : client) (title : string)
  : M spreadsheet_handle :=
  remote fault (fun w =>
    match store w with
    | Some _ => (Ok Spreadsheet, w)
    | None => (Raise SpreadsheetNotFound, w)
    end).

(** [sh.worksheet(title)]: raises [WorksheetNotFound(title)] when the
    spreadsheet has no such worksheet. *)
Definition worksheet (fault : option string)
    (sh : spreadsheet_handle) (title : string) : M worksheet_handle :=
  remote fault (fun w =>
    match store w with
    | Some s =>
        match lookup title s with
        | Some _ => (Ok title, w)
        | None => (Raise (WorksheetNotFound title), w)
        end
    | None => (Raise (APIError "Requested entity was not found."), w)
    end).

(** [sh.add_worksheet(title=..., rows=..., cols=...)]: a new blank
    worksheet after the existing ones. *)
Definition add_worksheet (fault : option string)
    (sh : spreadsheet_handle) (title : string) : M worksheet_handle :=
  remote fault (fun w =>
    match store w with
    | Some s =>
        match lookup title s with
        | Some _ => (Raise (APIError "A sheet with that name already exists."), w)
        | None => (Ok title, mkWorld (Some (s ++ [(title, Blank)])%list) (stdout w))
        end
    | None => (Raise (APIError "Requested entity was not found."), w)
    end).

Definition columns : list string := ["Kode"; "Nama"; "Waktu"].

Definition cells (r : Row) : list string := [Kode r; Nama r; Waktu r].

Definition row_of_cells (c : list string) : Row :=
  mkRow (nth 0 c "") (nth 1 c "") (nth 2 c "").

(** [ws.append_row(values)]: the values go below the last written row. *)
Definition append_row (fault : option string) (ws : worksheet_handle)
    (values : list string) : M unit :=
  remote fault (fun w =>
    match store w with
    | Some s =>
        match lookup ws s with
        | Some Blank =>
            (Ok tt, mkWorld (Some (update ws (Table []) s)) (stdout w))
        | Some (Table rs) =>
            (Ok tt, mkWorld (Some (update ws
                       (Table (rs ++ [row_of_cells values])%list) s)) (stdout w))
        | None => (Raise (APIError "Unable to parse range."), w)
        end
    | None => (Raise (APIError "Requested entity was not found."), w)
    end).

(** [ws.get_all_values()]: every written row, the header row first. *)
Definition get_all_values (fault : option string) (ws : worksheet_handle)
  : M (list (list string)) :=
  remote fault (fun w =>
    match store w with
    | Some s =>
        match lookup ws s with
        | Some Blank => (Ok [], w)
        | Some (Table rs) => (Ok (columns :: map cells rs), w)
        | None => (Raise (APIError "Unable to parse range."), w)
        end
    | None => (Raise (APIError "Requested entity was not found."), w)
    end).

(** [set_with_dataframe(ws, df, include_index=False, row=1, col=1)]: the
    header and the rows of [df] are written from the first cell on; rows
    of the worksheet below them are left as they are. *)
Definition set_with_dataframe (fault : option string) (ws : worksheet_handle)
    (df : DataFrame) : M unit :=
  remote fault (fun w =>
    match store w with
    | Some s =>
        match lookup ws s with
        | Some Blank =>
            (Ok tt, mkWorld (Some (update ws (Table df) s)) (stdout w))
        | Some (Table rs) =>
            (Ok tt, mkWorld (Some (update ws
                       (Table (df ++ skipn (List.length df) rs)%list) s))
                     (stdout w))
        | None => (Raise (APIError "Unable to parse range."), w)
        end
    | None => (Raise (APIError "Requested entity was not found."), w)
    end).

End Gspread.

Import Gspread.

Declare Scope monad_scope.
Notation "x <- m ;; k" := (bind m (fun x => k))
  (at level 61, m at next level, right associativity) : monad_scope.
Notation "m ;;; k" := (bind m (fun _ => k))
  (at level 61, right associativity) : monad_scope.
Local Open Scope monad_scope.

(** ** pandas: the [DataFrame] operations used by the program *)

Module Pandas.

(** [pd.DataFrame(columns=columns)] *)
Definition empty_frame : DataFrame := [].

(** [pd.DataFrame(data[1:], columns=data[0])] for a Kode, Nama, Waktu
    header *)
Definition of_values (data : list (list string)) : DataFrame :=
  map row_of_cells (tl data).

(** [df.empty] *)
Definition empty (df : DataFrame) : bool :=
  match df with [] => true | _ :: _ => false end.

(** [x in col.values] *)
Definition isin (x : string) (col : list string) : bool :=
  existsb (String.eqb x) col.

(** [df[df['Kode'] == k]] *)
Definition where_Kode (k : string) (df : DataFrame) : DataFrame :=
  filter (fun r => String.eqb (Kode r) k) df.

(** [col.iloc[0]] *)
Definition iloc0 (col : list string) : M string :=
  match col with
  | x :: _ => ret x
  | [] => raise (IndexError "single positional indexer is out-of-bounds")
  end.

(** [df.loc[len(df)] = new_row] *)
Definition loc_append (df : DataFrame) (new_row : Row) : DataFrame :=
  (df ++ [new_row])%list.

(** Insertion of one row into a frame sorted by Waktu, largest first; the
    row goes before the first row whose Waktu is not larger. *)
Fixpoint insert_desc (r : Row) (df : DataFrame) : DataFrame :=
  match df with
  | [] => [r]
  | x :: rest =>
      if String.leb (Waktu x) (Waktu r) then r :: x :: rest
      else x :: insert_desc r rest
  end.

(** [df.sort_values(by='Waktu', ascending=False)]: string order, largest
    first; rows with equal Waktu keep their order. *)
Definition sort_values_Waktu_desc (df : DataFrame) : DataFrame :=
  fold_right insert_desc [] df.

(** [df.head(n)] *)
Definition head (n : nat) (df : DataFrame) : DataFrame := firstn n df.

End Pandas.

(** One element of [recent_attendance]: a dict with the keys Nama, Waktu. *)
Record Recent : Type := mkRecent { recent_Nama : string; recent_Waktu : string }.

(** [df[['Nama', 'Waktu']].to_dict('records')] *)
Definition to_records (df : DataFrame) : list Recent :=
  map (fun r => mkRecent (Nama r) (Waktu r)) df.

(** Row [a] may stand before row [b] in a frame sorted by Waktu, largest
    first. *)
Definition later_first (a b : Row) : Prop :=
  String.leb (Waktu b) (Waktu a) = true.

(** The same order on the records of [recent_attendance]. *)
Definition recent_later_first (a b : Recent) : Prop :=
  String.leb (recent_Waktu b) (recent_Waktu a) = true.

(** ** The application *)

Definition SHEET_TITLE : string := "Rekap Absensi Tapak Suci Sidayu".

(** What the environment decides during one request: the locale, the three
    clock readings (loading, stamping, saving) and which remote calls fail. *)
Record env : Type := mkEnv {
  loc : Clock.locale;
  now_load : Clock.datetime;
  now_scan : Clock.datetime;
  now_save : Clock.datetime;
  f_open : option string;
  f_worksheet : option string;
  f_add_worksheet : option string;
  f_append_row : option string;
  f_get_all_values : option string;
  f_save_worksheet : option string;
  f_set_with_dataframe : option string
}.

(** [get_gspread_client()]: [creds_json] is the value of the environment
    variable, [authorize] stands for [json.loads] followed by
    [gspread.service_account_from_dict] and gives the message of the
    exception when one of them raises. *)
Definition get_gspread_client (authorize : string -> string + client)
    (creds_json : option string) : M (option client) :=
  match creds_json with
  | None | Some EmptyString =>
      print "ERROR: Environment variable GSPREAD_CREDENTIALS tidak ditemukan!" ;;;
      ret None
  | Some creds =>
      match authorize creds with
      | inr gc => ret (Some gc)
      | inl e =>
          print ("Gagal menginisialisasi GSpread client: " ++ e) ;;;
          ret None
      end
  end.

(** The second component of what [get_attendance_dataframe] returns: an
    error string or the spreadsheet handle. *)
Inductive sh_or_error : Type :=
| ErrorStr (s : string)
| Handle (sh : spreadsheet_handle).

(** [isinstance(sh, str)] *)
Definition is_str (sh : sh_or_error) : bool :=
  match sh with ErrorStr _ => true | Handle _ => false end.

Definition get_attendance_dataframe (e : env) (gc : option client)
  : M (DataFrame * sh_or_error) :=
  let current_worksheet_name := get_weekly_worksheet_name (loc e) (now_load e) in
  match gc with
  | None => ret (Pandas.empty_frame, ErrorStr "Gagal koneksi GSheets")
  | Some gc =>
      try_except (open (f_open e) gc SHEET_TITLE)
        (fun x => match x with
                  | WorksheetNotFound _ => Some (
                      print ("Sheet '" ++ SHEET_TITLE ++ "' tidak ditemukan!") ;;;
                      ret (Pandas.empty_frame, ErrorStr "Sheet Gagal"))
                  | _ => None
                  end)
        (fun sh =>
      try_except (worksheet (f_worksheet e) sh current_worksheet_name)
        (fun x => match x with
                  | WorksheetNotFound _ => Some (
                      ws <- add_worksheet (f_add_worksheet e) sh
                              current_worksheet_name ;;
                      append_row (f_append_row e) ws columns ;;;
                      print ("Worksheet baru '" ++ current_worksheet_name
                               ++ "' telah dibuat.") ;;;
                      ret (Pandas.empty_frame, Handle sh))
                  | _ => None
                  end)
        (fun ws =>
      data <- get_all_values (f_get_all_values e) ws ;;
      if (List.length data <=? 1)%nat
      then ret (Pandas.empty_frame, Handle sh)
      else
        let df := Pandas.of_values data in
        ret (df, Handle sh)))
  end.

(** The [try] block of [save_attendance_dataframe]. *)
Definition save_body (e : env) (df : DataFrame) (sh : sh_or_error) : M unit :=
  let current_worksheet_name := get_weekly_worksheet_name (loc e) (now_save e) in
  ws <- match sh with
        | Handle h => worksheet (f_save_worksheet e) h current_worksheet_name
        | ErrorStr _ =>
            raise (AttributeError "'str' object has no attribute 'worksheet'")
        end ;;
  set_with_dataframe (f_set_with_dataframe e) ws df ;;;
  print ("Data absensi berhasil disimpan ke Google Sheet: " ++ SHEET_TITLE
           ++ "/" ++ current_worksheet_name).

Definition save_attendance_dataframe (e : env) (df : DataFrame)
    (sh : sh_or_error) : M unit :=
  try_except (save_body e df sh)
    (fun x => Some (print ("Gagal menyimpan data ke GSheets: " ++ exn_str x)))
    (fun _ => ret tt).

(** The dict returned by [process_qrcode]; the keys kode and
    recent_attendance are absent on some paths. *)
Record ScanResult : Type := mkResult {
  nama : string;
  kode : option string;
  status : string;
  waktu : string;
  recent_attendance : option (list Recent)
}.

(** The parsing block of [process_qrcode] (the [try] of step 1): [None]
    when [ValueError] is raised, else [(kode_upper, nama_lengkap)]. *)
Definition parse_qr_data (qr_data : string) : option (string * string) :=
  if negb (Text.contains "_" qr_data) then None
  else
    match Text.split1 "_" qr_data with
    | Some (kode, nama_raw) =>
        let nama_lengkap := Text.upper (Text.replace_char "-" " " nama_raw) in
        let kode_upper := Text.upper kode in
        Some (kode_upper, nama_lengkap)
    | None => None
    end.

(** Step 4 of [process_qrcode]: the ten rows with the largest Waktu. *)
Definition recent_of (df_absensi : DataFrame) : list Recent :=
  to_records (Pandas.head 10 (Pandas.sort_values_Waktu_desc df_absensi)).

Definition process_qrcode (e : env) (qr_data : string) (gc : option client)
  : M ScanResult :=
  r <- get_attendance_dataframe e gc ;;
  let '(df_absensi, sh) := r in
  let time_now_hms := Clock.strftime_HMS (now_scan e) in
  if Pandas.empty df_absensi && is_str sh then
    ret (mkResult "Gagal Koneksi GSheets" None "CONNECTION_ERROR"
           time_now_hms None)
  else
    match parse_qr_data qr_data with
    | None =>
        ret (mkResult "Format QR Tidak Valid" None "INVALID_FORMAT"
               time_now_hms None)
    | Some (kode_upper, nama_lengkap) =>
        if Pandas.isin kode_upper (map Kode df_absensi) then
          waktu_sebelumnya <-
            Pandas.iloc0 (map Waktu (Pandas.where_Kode kode_upper df_absensi)) ;;
          ret (mkResult nama_lengkap (Some kode_upper) "REGISTERED"
                 waktu_sebelumnya (Some (recent_of df_absensi)))
        else
          let new_row := mkRow kode_upper nama_lengkap time_now_hms in
          let df_absensi := Pandas.loc_append df_absensi new_row in
          save_attendance_dataframe e df_absensi sh ;;;
          ret (mkResult nama_lengkap (Some kode_upper) "SUCCESS"
                 time_now_hms (Some (recent_of df_absensi)))
    end.

(** The guard of [process_qrcode] on what the load returned. *)
Definition load_failed (df : DataFrame) (sh : sh_or_error) : bool :=
  Pandas.empty df && is_str sh.

(** The JSON responses of the [/scan] route; an exception that escapes the
    handler is the [Raise] of the monad. *)
Inductive response : Type :=
| BadRequest (error : string)
| Json (body : ScanResult).

Definition scan (e : env) (GSHEET_CLIENT : option client)
    (qr_data : option string) : M response :=
  match qr_data with
  | None | Some EmptyString => ret (BadRequest "No QR data provided")
  | Some qr_data =>
      result <- process_qrcode e qr_data GSHEET_CLIENT ;;
      ret (Json result)
  end.

(** A request during which no remote call fails. *)
Definition calm (l : Clock.locale) (t1 t2 t3 : Clock.datetime) : env :=
  mkEnv l t1 t2 t3 None None None None None None None.

(** No remote call of [get_attendance_dataframe] fails. *)
Definition load_calm (e : env) : Prop :=
  f_open e = None /\ f_worksheet e = None /\ f_add_worksheet e = None /\
  f_append_row e = None /\ f_get_all_values e = None.

(** No remote call of [save_attendance_dataframe] fails. *)
Definition save_calm (e : env) : Prop :=
  f_save_worksheet e = None /\ f_set_with_dataframe e = None.

(** The name of the partition a request loads, and the one it saves to. *)
Definition load_name (e : env) : string :=
  get_weekly_worksheet_name (loc e) (now_load e).

Definition save_name (e : env) : string :=
  get_weekly_worksheet_name (loc e) (now_save e).

(** The rows of the partition [name] in the world, when it has a header. *)
Definition partition (name : string) (w : world) : option (list Row) :=
  match store w with
  | Some s => match lookup name s with
              | Some (Table rs) => Some rs
              | _ => None
              end
  | None => None
  end.

(** [time_now_hms] of a request *)
Definition time_now_hms (e : env) : string := Clock.strftime_HMS (now_scan e).


(** The view model of the [/] route: the [recent_attendance] handed to
    [render_template('index.html', ...)]. *)
Definition index (e : env) (GSHEET_CLIENT : option client) : M (list Recent) :=
  r <- get_attendance_dataframe e GSHEET_CLIENT ;;
  let '(df_absensi, _) := r in
  let recent_attendance :=
    if Pandas.empty df_absensi then [] else recent_of df_absensi in
  ret recent_attendance.

(** The grid of the worksheet [title] in the world, when there is one. *)
Definition sheet_of (title : string) (w : world) : option grid :=
  match store w with
  | Some s => lookup title s
  | None => None
  end.

(** A time of day as [datetime] has it, and its seconds since midnight. *)
Definition valid_time (t : Clock.datetime) : Prop :=
  0 <= Clock.hour t < 24 /\ 0 <= Clock.minute t < 60 /\
  0 <= Clock.second t < 60.

Definition seconds_of_day (t : Clock.datetime) : Z :=
  Clock.hour t * 3600 + Clock.minute t * 60 + Clock.second t.

(** ** Scenarios *)

(** Friday 24 October 2025, 07:05:09 and 07:06:00, and the Saturday after. *)
Definition friday_0705 : Clock.datetime := Clock.mkDatetime 2025 10 24 7 5 9.
Definition friday_0706 : Clock.datetime := Clock.mkDatetime 2025 10 24 7 6 0.
Definition saturday_0705 : Clock.datetime := Clock.mkDatetime 2025 10 25 7 5 9.

(** Requests that take place within one second, with an Indonesian locale. *)
Definition first_scan : env :=
  calm Clock.id_ID friday_0705 friday_0705 friday_0705.
Definition second_scan : env :=
  calm Clock.id_ID friday_0706 friday_0706 friday_0706.

(** The first request when [set_with_dataframe] fails. *)
Definition failing_write : env :=
  mkEnv Clock.id_ID friday_0705 friday_0705 friday_0705
    None None None None None None (Some "503 Service Unavailable").

Definition budi : Row := mkRow "A1" "BUDI SANTOSO" "07:05:09".

(** The spreadsheet exists and has no worksheet for the day yet. *)
Definition fresh_world : world := mkWorld (Some []) [].

(** The worksheet of the Friday holds the row of A1. *)
Definition friday_world : world :=
  mkWorld (Some [("JUMAT_24-10-2025", Table [budi])]) [].

(** The world after [failing_write] on [fresh_world]: the worksheet was
    created with its header, the row was not written. *)
Definition unsaved_world : world :=
  mkWorld (Some [("JUMAT_24-10-2025", Table [])])
    ["Worksheet baru 'JUMAT_24-10-2025' telah dibuat.";
     "Gagal menyimpan data ke GSheets: 503 Service Unavailable"].

(** The world after [first_scan] of A1 on [fresh_world]. *)
Definition saved_world : world :=
  mkWorld (Some [("JUMAT_24-10-2025", Table [budi])])
    ["Worksheet baru 'JUMAT_24-10-2025' telah dibuat.";
     "Data absensi berhasil disimpan ke Google Sheet: Rekap Absensi Tapak Suci Sidayu/JUMAT_24-10-2025"].

Definition siti : Row := mkRow "B2" "SITI AMINAH" "07:06:00".
Definition ali : Row := mkRow "Z9" "ALI" "06:59:00".

(** The worksheets of the Thursday and of the Friday. *)
Definition week_world : world :=
  mkWorld (Some [("KAMIS_23-10-2025", Table [ali]);
                 ("JUMAT_24-10-2025", Table [budi])]) [].


(** A request during which writing the header of a new worksheet fails. *)
Definition failing_header : env :=
  mkEnv Clock.id_ID friday_0705 friday_0705 friday_0705
    None None None (Some "429 Too Many Requests") None None None.

(** A request that loads just before midnight and saves just after. *)
Definition midnight_scan : env :=
  mkEnv Clock.id_ID
    (Clock.mkDatetime 2025 10 24 23 59 59)
    (Clock.mkDatetime 2025 10 24 23 59 59)
    (Clock.mkDatetime 2025 10 25 0 0 0)
    None None None None None None None.

(** * Properties *)

(** ** Strings *)

Section TextFacts.

Import Text.

Lemma append_assoc (a b c : string) : (a ++ b) ++ c = a ++ (b ++ c).
Proof. induction a as [|x a IH]; simpl; [reflexivity | now rewrite IH]. Qed.

Lemma length_append (a b : string) :
  String.length (a ++ b) = (String.length a + String.length b)%nat.
Proof. induction a as [|x a IH]; simpl; [reflexivity | now rewrite IH]. Qed.

(** Two texts that end in tails of the same length end in the same tail. *)
Lemma append_tail_inj (a1 a2 d1 d2 : string) :
  String.length d1 = String.length d2 -> a1 ++ d1 = a2 ++ d2 -> d1 = d2.
Proof.
  revert a2; induction a1 as [|x a1 IH]; intros [|y a2] Hlen Heq; simpl in Heq.
  - exact Heq.
  - apply (f_equal String.length) in Heq. simpl in Heq.
    rewrite length_append in Heq. lia.
  - apply (f_equal String.length) in Heq. simpl in Heq.
    rewrite length_append in Heq. lia.
  - injection Heq as _ Heq. now apply (IH a2).
Qed.

Lemma upper_append (a b : string) : upper (a ++ b) = upper a ++ upper b.
Proof. induction a as [|x a IH]; simpl; [reflexivity | now rewrite IH]. Qed.

Lemma contains_append (c : ascii) (a b : string) :
  contains c (a ++ b) = contains c a || contains c b.
Proof.
  induction a as [|x a IH]; simpl; [reflexivity|].
  now rewrite IH, orb_assoc.
Qed.

Lemma split1_append (c : ascii) (l r : string) :
  contains c l = false -> split1 c (l ++ String c r) = Some (l, r).
Proof.
  induction l as [|x l IH]; simpl; intros H.
  - now rewrite Ascii.eqb_refl.
  - apply orb_false_iff in H as [Hx Hl]. rewrite Hx, (IH Hl). reflexivity.
Qed.

(** A text that contains [c] is cut at its first [c]. *)
Lemma contains_cut (c : ascii) (s : string) :
  contains c s = true ->
  exists l r, s = l ++ String c r /\ contains c l = false.
Proof.
  induction s as [|x s IH]; simpl; intros H; [discriminate|].
  destruct (Ascii.eqb x c) eqn:E.
  - apply Ascii.eqb_eq in E; subst x. now exists EmptyString, s.
  - destruct (IH H) as (l & r & -> & Hl).
    exists (String x l), r. simpl. now rewrite E, Hl.
Qed.

Lemma split1_none (c : ascii) (s : string) :
  contains c s = false -> split1 c s = None.
Proof.
  induction s as [|x s IH]; simpl; intros H; [reflexivity|].
  apply orb_false_iff in H as [Hx Hs]. now rewrite Hx, (IH Hs).
Qed.

Lemma replace_comma_space_other (x : ascii) (s : string) :
  Ascii.eqb x "," = false ->
  replace_comma_space (String x s) = String x (replace_comma_space s).
Proof.
  intros H. destruct s as [|y s]; [reflexivity|].
  change (replace_comma_space (String x (String y s)))
    with (if Ascii.eqb x "," && Ascii.eqb y " "
          then String "_" (replace_comma_space s)
          else String x (replace_comma_space (String y s))).
  now rewrite H.
Qed.

Lemma replace_comma_space_id (s : string) :
  contains "," s = false -> replace_comma_space s = s.
Proof.
  induction s as [|x s IH]; intros H; [reflexivity|].
  simpl in H. apply orb_false_iff in H as [Hx Hs].
  now rewrite (replace_comma_space_other _ _ Hx), (IH Hs).
Qed.

(** The separator after a comma-free prefix is the first one replaced. *)
Lemma replace_comma_space_sep (a b : string) :
  contains "," a = false ->
  replace_comma_space (a ++ ", " ++ b) = a ++ "_" ++ replace_comma_space b.
Proof.
  induction a as [|x a IH]; intros H.
  - reflexivity.
  - simpl in H. apply orb_false_iff in H as [Hx Ha].
    change (String x a ++ ", " ++ b) with (String x (a ++ ", " ++ b)).
    rewrite (replace_comma_space_other _ _ Hx), (IH Ha). reflexivity.
Qed.

Lemma digit_in (n : Z) : In (digit n) digits.
Proof.
  unfold digit. apply nth_In. simpl.
  pose proof (Z.mod_pos_bound n 10). lia.
Qed.

Lemma digit_plain (n : Z) :
  upper_char (digit n) = digit n /\ Ascii.eqb (digit n) "," = false.
Proof.
  pose proof (digit_in n) as H. simpl in H.
  repeat (destruct H as [<- | H]; [split; reflexivity|]). contradiction.
Qed.

Lemma digit_inj (n m : Z) : digit n = digit m -> n mod 10 = m mod 10.
Proof.
  unfold digit. intros H.
  pose proof (Z.mod_pos_bound n 10) as Hn.
  pose proof (Z.mod_pos_bound m 10) as Hm.
  assert (Hd : NoDup digits).
  { unfold digits. repeat constructor; simpl; intuition discriminate. }
  pose proof (proj1 (NoDup_nth digits "0"%char) Hd
                (Z.to_nat (n mod 10)) (Z.to_nat (m mod 10))) as Hinj.
  simpl in Hinj. specialize (Hinj ltac:(lia) ltac:(lia) H). lia.
Qed.

Lemma pad2_inj (a b : Z) :
  0 <= a < 100 -> 0 <= b < 100 -> pad2 a = pad2 b -> a = b.
Proof.
  intros Ha Hb H. unfold pad2 in H. injection H as H1 H0.
  apply digit_inj in H1, H0. Z.div_mod_to_equations. lia.
Qed.

Lemma pad4_inj (a b : Z) :
  0 <= a < 10000 -> 0 <= b < 10000 -> pad4 a = pad4 b -> a = b.
Proof.
  intros Ha Hb H. unfold pad4 in H. injection H as H3 H2 H1 H0.
  apply digit_inj in H3, H2, H1, H0. Z.div_mod_to_equations. lia.
Qed.

End TextFacts.

(** ** The partition namer *)

Section NamerFacts.

Import Text Clock.

Lemma day_name_plain (l : locale) (wd : Z) :
  contains "," (upper (day_name l wd)) = false.
Proof.
  unfold day_name. destruct l; generalize (Z.to_nat wd); intros n;
    do 8 (destruct n as [|n]; [reflexivity|]); reflexivity.
Qed.

Lemma strftime_dmY_plain (t : datetime) :
  upper (strftime_dmY t) = strftime_dmY t /\
  contains "," (strftime_dmY t) = false.
Proof.
  unfold strftime_dmY, pad2, pad4. simpl.
  repeat match goal with
         | |- context [upper_char (digit ?n)] =>
             rewrite (proj1 (digit_plain n))
         | |- context [Ascii.eqb (digit ?n) ","] =>
             rewrite (proj2 (digit_plain n))
         end.
  split; reflexivity.
Qed.

Lemma strftime_dmY_length (t : datetime) : String.length (strftime_dmY t) = 10%nat.
Proof. reflexivity. Qed.

Lemma strftime_dmY_inj (a b : datetime) :
  valid_date a -> valid_date b -> strftime_dmY a = strftime_dmY b ->
  same_calendar_day a b.
Proof.
  intros (Hy & Hm & Hd) (Hy' & Hm' & Hd') H.
  unfold strftime_dmY in H. simpl in H.
  injection H as D1 D0 M1 M0 Y3 Y2 Y1 Y0.
  assert (Ed : pad2 (day a) = pad2 (day b)) by (unfold pad2; congruence).
  assert (Em : pad2 (month a) = pad2 (month b)) by (unfold pad2; congruence).
  assert (Ey : pad4 (year a) = pad4 (year b)) by (unfold pad4; congruence).
  apply pad2_inj in Ed, Em; try lia. apply pad4_inj in Ey; try lia.
  now repeat split.
Qed.

(** The name is the uppercased weekday name, an underscore and the date. *)
Lemma worksheet_name_shape (l : locale) (t : datetime) :
  get_weekly_worksheet_name l t
  = upper (day_name l (weekday t)) ++ "_" ++ strftime_dmY t.
Proof.
  unfold get_weekly_worksheet_name, strftime_A_dmY.
  rewrite !upper_append.
  destruct (strftime_dmY_plain t) as [Hu Hc].
  rewrite Hu. change (upper ", ") with ", ".
  rewrite replace_comma_space_sep by apply day_name_plain.
  now rewrite (replace_comma_space_id _ Hc).
Qed.

End NamerFacts.

(** ** Frames and the store *)

Section FrameFacts.

Import Pandas.

Lemma insert_desc_perm (r : Row) (df : DataFrame) :
  Permutation (insert_desc r df) (r :: df).
Proof.
  induction df as [|x df IH]; simpl; [apply Permutation_refl|].
  destruct (String.leb (Waktu x) (Waktu r)); [apply Permutation_refl|].
  apply perm_trans with (x :: r :: df); [now apply perm_skip | apply perm_swap].
Qed.

Lemma sort_values_perm (df : DataFrame) :
  Permutation (sort_values_Waktu_desc df) df.
Proof.
  induction df as [|x df IH]; simpl; [apply perm_nil|].
  eapply perm_trans; [apply insert_desc_perm | now apply perm_skip].
Qed.

Lemma insert_desc_hd (r x : Row) (df : DataFrame) :
  later_first x r -> HdRel later_first x df ->
  HdRel later_first x (insert_desc r df).
Proof.
  intros Hxr Hhd. destruct df as [|y df]; simpl.
  - now constructor.
  - destruct (String.leb (Waktu y) (Waktu r)); constructor;
      [assumption | now inversion Hhd].
Qed.

Lemma insert_desc_sorted (r : Row) (df : DataFrame) :
  Sorted later_first df -> Sorted later_first (insert_desc r df).
Proof.
  induction df as [|x df IH]; simpl; intros Hs.
  - repeat constructor.
  - destruct (String.leb (Waktu x) (Waktu r)) eqn:E.
    + constructor; [assumption | now constructor].
    + inversion Hs as [|? ? Hs' Hhd]; subst.
      constructor; [now apply IH|].
      apply insert_desc_hd; [|assumption].
      unfold later_first.
      destruct (String.leb_total (Waktu x) (Waktu r)) as [H|H];
        [congruence | exact H].
Qed.

Lemma sort_values_sorted (df : DataFrame) :
  Sorted later_first (sort_values_Waktu_desc df).
Proof.
  induction df as [|x df IH]; simpl; [constructor | now apply insert_desc_sorted].
Qed.

Lemma firstn_sorted {A} (R : A -> A -> Prop) (n : nat) (l : list A) :
  Sorted R l -> Sorted R (firstn n l).
Proof.
  revert l; induction n as [|n IH]; intros [|x l] Hs; simpl; try constructor.
  - apply IH. now inversion Hs.
  - inversion Hs as [|? ? _ Hhd]; subst.
    destruct n; simpl; [constructor|].
    destruct l; simpl; constructor. now inversion Hhd.
Qed.

Lemma to_records_sorted (df : DataFrame) :
  Sorted later_first df -> Sorted recent_later_first (to_records df).
Proof.
  induction 1 as [|x l Hs IH Hhd]; simpl; constructor; [exact IH|].
  destruct Hhd; simpl; constructor. assumption.
Qed.

Lemma recent_of_length (df : DataFrame) : (List.length (recent_of df) <= 10)%nat.
Proof.
  unfold recent_of, to_records, head. rewrite length_map.
  apply firstn_le_length.
Qed.

Lemma recent_of_sorted (df : DataFrame) :
  Sorted recent_later_first (recent_of df).
Proof.
  unfold recent_of, head.
  apply to_records_sorted, firstn_sorted, sort_values_sorted.
Qed.

Lemma where_Kode_absent (k : string) (df : DataFrame) :
  isin k (map Kode df) = false -> where_Kode k df = [].
Proof.
  induction df as [|x df IH]; simpl; intros H; [reflexivity|].
  apply orb_false_iff in H as [Hx Hdf].
  rewrite String.eqb_sym, Hx. now apply IH.
Qed.

Lemma where_Kode_present (k : string) (df : DataFrame) :
  isin k (map Kode df) = true -> exists r rest, where_Kode k df = r :: rest.
Proof.
  induction df as [|x df IH]; simpl; intros H; [discriminate|].
  rewrite (String.eqb_sym (Kode x) k).
  destruct (String.eqb k (Kode x)); [now eexists; eexists|].
  now apply IH.
Qed.

Lemma where_Kode_app (k : string) (a b : DataFrame) :
  where_Kode k (a ++ b)%list = (where_Kode k a ++ where_Kode k b)%list.
Proof. apply filter_app. Qed.

Lemma isin_In (k : string) (df : DataFrame) :
  isin k (map Kode df) = true <-> exists r, In r df /\ Kode r = k.
Proof.
  unfold isin. rewrite existsb_exists. split.
  - intros (x & Hin & Hx). apply in_map_iff in Hin as (r & <- & Hr).
    apply String.eqb_eq in Hx. now exists r.
  - intros (r & Hr & <-). exists (Kode r). split;
      [now apply in_map | apply String.eqb_refl].
Qed.

Lemma row_of_cells_cells (r : Row) : row_of_cells (cells r) = r.
Proof. now destruct r. Qed.

Lemma of_values_roundtrip (rs : list Row) :
  of_values (columns :: map cells rs) = rs.
Proof.
  unfold of_values. simpl. rewrite map_map.
  induction rs as [|r rs IH]; simpl; [reflexivity|].
  now rewrite row_of_cells_cells, IH.
Qed.

Lemma lookup_update (t : string) (g g' : grid) (s : spreadsheet) :
  lookup t s = Some g -> lookup t (update t g' s) = Some g'.
Proof.
  induction s as [|[t' x] s IH]; simpl; [discriminate|].
  destruct (String.eqb t' t) eqn:E; simpl; rewrite E; [reflexivity | exact IH].
Qed.

Lemma lookup_app_new (t : string) (g : grid) (s : spreadsheet) :
  lookup t s = None -> lookup t (s ++ [(t, g)])%list = Some g.
Proof.
  induction s as [|[t' x] s IH]; simpl.
  - now rewrite String.eqb_refl.
  - destruct (String.eqb t' t); [discriminate | exact IH].
Qed.

End FrameFacts.

(** ** Loading, saving and the four outcomes of a scan *)

(** Reduction of the monadic code once the store and the looked-up
    worksheet are known. *)
Ltac reduce_with Hs Hl :=
  repeat progress (cbv beta iota; rewrite ?Hs, ?Hl).

Ltac run_effects :=
  unfold try_except, bind, ret, print, open, worksheet, add_worksheet,
    append_row, get_all_values, set_with_dataframe, remote, raise.

Section ScanFacts.

Import Pandas.

(** What a load that returns a handle leaves in the store: the partition of
    the day holds exactly the returned rows, and a load that returns rows
    changes nothing. *)
Lemma load_handle_inv (e : env) (gc : option client) (w w1 : world)
    (df : DataFrame) (sh : spreadsheet_handle) :
  get_attendance_dataframe e gc w = (Ok (df, Handle sh), w1) ->
  exists s1, store w1 = Some s1 /\
    (lookup (load_name e) s1 = Some (Table df) \/
     (lookup (load_name e) s1 = Some Blank /\ df = [])) /\
    (df <> [] -> w1 = w).
Proof.
  unfold get_attendance_dataframe, load_name.
  set (n := get_weekly_worksheet_name (loc e) (now_load e)).
  destruct gc as [c|]; [|discriminate].
  run_effects.
  destruct (f_open e); [discriminate|].
  destruct (store w) as [s|] eqn:Hs; [|discriminate].
  destruct (f_worksheet e); [discriminate|].
  rewrite Hs.
  destruct (lookup n s) as [g|] eqn:Hl.
  - destruct (f_get_all_values e); [discriminate|].
    rewrite Hs, Hl.
    destruct g as [|rs].
    + simpl. intros H; injection H as <- <- <-.
      exists s. repeat split; auto; try congruence.
    + destruct rs as [|r rs].
      * simpl. intros H; injection H as <- <- <-.
        exists s. repeat split; auto; try congruence.
      * change (List.length (columns :: map cells (r :: rs)) <=? 1)%nat
          with false.
        rewrite of_values_roundtrip.
        intros H; injection H as <- <- <-.
        exists s. repeat split; auto; try congruence.
  - destruct (f_add_worksheet e); [discriminate|].
    rewrite Hs, Hl.
    destruct (f_append_row e); [discriminate|].
    cbn [store stdout].
    rewrite (lookup_app_new _ Blank _ Hl).
    intros H; injection H as <- <- <-.
    eexists. cbn [store]. split; [reflexivity|]. split; [|intros Hne; now elim Hne].
    left. apply lookup_update with (g := Blank).
    now apply lookup_app_new.
Qed.

(** A load during which no remote call fails, on an existing spreadsheet,
    returns the rows of the partition of the day. *)
Lemma load_calm_run (e : env) (c : client) (w : world) (s : spreadsheet) :
  load_calm e -> store w = Some s ->
  exists w1,
    get_attendance_dataframe e (Some c) w
    = (Ok (match lookup (load_name e) s with
           | Some (Table rs) => rs
           | _ => []
           end, Handle Spreadsheet), w1).
Proof.
  intros (H1 & H2 & H3 & H4 & H5) Hs.
  unfold get_attendance_dataframe, load_name.
  set (n := get_weekly_worksheet_name (loc e) (now_load e)).
  run_effects. rewrite H1, H2, H3, H4, H5.
  destruct (lookup n s) as [g|] eqn:Hl; reduce_with Hs Hl.
  - destruct g as [|[|r rs]]; try (eexists; reflexivity).
    change (List.length (columns :: map cells (r :: rs)) <=? 1)%nat with false.
    cbv beta iota. rewrite of_values_roundtrip. eexists; reflexivity.
  - cbn [store stdout].
    rewrite (lookup_app_new _ Blank _ Hl). eexists; reflexivity.
Qed.

(** A load never returns rows together with an error string. *)
Lemma load_error_empty (e : env) (gc : option client) (w w1 : world)
    (df : DataFrame) (m : string) :
  get_attendance_dataframe e gc w = (Ok (df, ErrorStr m), w1) ->
  df = [] /\ gc = None /\ w1 = w.
Proof.
  unfold get_attendance_dataframe.
  set (n := get_weekly_worksheet_name (loc e) (now_load e)).
  destruct gc as [c|].
  - run_effects.
    destruct (f_open e); [discriminate|].
    destruct (store w) as [s|] eqn:Hs; [|discriminate].
    destruct (f_worksheet e); [discriminate|].
    rewrite Hs.
    destruct (lookup n s) as [g|] eqn:Hl.
    + destruct (f_get_all_values e); [discriminate|].
      rewrite Hs, Hl. destruct g as [|rs]; [discriminate|].
      destruct (List.length (columns :: map cells rs) <=? 1)%nat; discriminate.
    + destruct (f_add_worksheet e); [discriminate|].
      rewrite Hs, Hl.
      destruct (f_append_row e); [discriminate|].
      cbn [store stdout]. rewrite (lookup_app_new _ Blank _ Hl). discriminate.
  - unfold ret. intros H; injection H as <- _ <-. auto.
Qed.

(** The body of the save leaves the world as it is when it raises. *)
Lemma save_body_raise (e : env) (df : DataFrame) (sh : sh_or_error)
    (w w' : world) (x : exn) :
  save_body e df sh w = (Raise x, w') -> w' = w.
Proof.
  unfold save_body.
  set (n := get_weekly_worksheet_name (loc e) (now_save e)).
  run_effects.
  destruct sh as [m|h].
  - intros H; now injection H.
  - destruct (f_save_worksheet e); [intros H; now injection H|].
    destruct (store w) as [s|] eqn:Hs; [|intros H; now injection H].
    destruct (lookup n s) as [g|] eqn:Hl; [|intros H; now injection H].
    destruct (f_set_with_dataframe e); [intros H; now injection H|].
    rewrite Hs, Hl. destruct g; discriminate.
Qed.

(** The save never raises: what its body raises is printed. *)
Lemma save_run (e : env) (df : DataFrame) (sh : sh_or_error) (w : world) :
  save_attendance_dataframe e df sh w
  = match save_body e df sh w with
    | (Ok _, w') => (Ok tt, w')
    | (Raise x, _) =>
        (Ok tt, mkWorld (store w)
                  (stdout w ++ ["Gagal menyimpan data ke GSheets: " ++ exn_str x]))
    end.
Proof.
  unfold save_attendance_dataframe, try_except.
  destruct (save_body e df sh w) as [[u|x] w'] eqn:E; [reflexivity|].
  apply save_body_raise in E. subst w'. reflexivity.
Qed.

Lemma save_total (e : env) (df : DataFrame) (sh : sh_or_error) (w : world) :
  exists w', save_attendance_dataframe e df sh w = (Ok tt, w').
Proof.
  rewrite save_run. destruct (save_body e df sh w) as [[u|x] w']; eauto.
Qed.

(** A save during which no remote call fails overwrites the partition it
    names from the first row on. *)
Lemma save_calm_run (e : env) (df : DataFrame) (h : spreadsheet_handle)
    (w : world) (s : spreadsheet) (g : grid) :
  save_calm e -> store w = Some s -> lookup (save_name e) s = Some g ->
  save_attendance_dataframe e df (Handle h) w
  = (Ok tt,
     mkWorld
       (Some (update (save_name e)
                (Table match g with
                       | Blank => df
                       | Table rs => (df ++ skipn (List.length df) rs)%list
                       end) s))
       (stdout w ++ ["Data absensi berhasil disimpan ke Google Sheet: "
                       ++ SHEET_TITLE ++ "/" ++ save_name e])).
Proof.
  intros [H1 H2] Hs Hl.
  unfold save_attendance_dataframe, save_body, save_name in *.
  set (n := get_weekly_worksheet_name (loc e) (now_save e)) in *.
  run_effects. rewrite H1, H2. reduce_with Hs Hl.
  destruct g; reflexivity.
Qed.

Lemma scan_connection_error (e : env) (qr : string) (gc : option client)
    (w w1 : world) (df : DataFrame) (sh : sh_or_error) :
  get_attendance_dataframe e gc w = (Ok (df, sh), w1) ->
  load_failed df sh = true ->
  process_qrcode e qr gc w
  = (Ok (mkResult "Gagal Koneksi GSheets" None "CONNECTION_ERROR"
           (time_now_hms e) None), w1).
Proof.
  intros Hl Hg. unfold process_qrcode, bind. rewrite Hl.
  unfold load_failed in Hg. now rewrite Hg.
Qed.

Lemma scan_invalid_format (e : env) (qr : string) (gc : option client)
    (w w1 : world) (df : DataFrame) (sh : sh_or_error) :
  get_attendance_dataframe e gc w = (Ok (df, sh), w1) ->
  load_failed df sh = false ->
  parse_qr_data qr = None ->
  process_qrcode e qr gc w
  = (Ok (mkResult "Format QR Tidak Valid" None "INVALID_FORMAT"
           (time_now_hms e) None), w1).
Proof.
  intros Hl Hg Hp. unfold process_qrcode, bind. rewrite Hl.
  unfold load_failed in Hg. now rewrite Hg, Hp.
Qed.

Lemma scan_registered (e : env) (qr : string) (gc : option client)
    (w w1 : world) (df : DataFrame) (sh : sh_or_error) (k n : string) :
  get_attendance_dataframe e gc w = (Ok (df, sh), w1) ->
  load_failed df sh = false ->
  parse_qr_data qr = Some (k, n) ->
  isin k (map Kode df) = true ->
  exists r rest,
    where_Kode k df = r :: rest /\
    process_qrcode e qr gc w
    = (Ok (mkResult n (Some k) "REGISTERED" (Waktu r) (Some (recent_of df))),
       w1).
Proof.
  intros Hl Hg Hp Hin.
  destruct (where_Kode_present _ _ Hin) as (r & rest & Hw).
  exists r, rest. split; [exact Hw|].
  unfold process_qrcode, bind. rewrite Hl.
  unfold load_failed in Hg. rewrite Hg, Hp, Hin, Hw. reflexivity.
Qed.

Lemma scan_success (e : env) (qr : string) (gc : option client)
    (w w1 : world) (df : DataFrame) (sh : sh_or_error) (k n : string) :
  get_attendance_dataframe e gc w = (Ok (df, sh), w1) ->
  load_failed df sh = false ->
  parse_qr_data qr = Some (k, n) ->
  isin k (map Kode df) = false ->
  let df' := loc_append df (mkRow k n (time_now_hms e)) in
  exists w2,
    save_attendance_dataframe e df' sh w1 = (Ok tt, w2) /\
    process_qrcode e qr gc w
    = (Ok (mkResult n (Some k) "SUCCESS" (time_now_hms e)
             (Some (recent_of df'))), w2).
Proof.
  intros Hl Hg Hp Hin df'.
  destruct (save_total e df' sh w1) as [w2 Hs].
  exists w2. split; [exact Hs|].
  unfold process_qrcode, bind. rewrite Hl.
  unfold load_failed in Hg. rewrite Hg, Hp, Hin.
  fold (time_now_hms e). fold df'. now rewrite Hs.
Qed.

(** The parser fails exactly on the texts without an underscore. *)
Lemma parse_none (qr : string) :
  Text.contains "_" qr = false -> parse_qr_data qr = None.
Proof. intros H. unfold parse_qr_data. now rewrite H. Qed.

Lemma parse_cut (l r : string) :
  Text.contains "_" l = false ->
  parse_qr_data (l ++ String "_" r)
  = Some (Text.upper l, Text.upper (Text.replace_char "-" " " r)).
Proof.
  intros H. unfold parse_qr_data.
  rewrite contains_append. simpl. rewrite orb_true_r. simpl.
  now rewrite (split1_append _ _ _ H).
Qed.

End ScanFacts.

(** ** The claims *)

Section Claims.

Import Pandas.

(** A load that finds the worksheet of the day leaves the world as it is. *)
Lemma load_existing_unchanged (e : env) (gc : option client) (w w1 : world)
    (s : spreadsheet) (g : grid) (r : DataFrame * sh_or_error) :
  store w = Some s -> lookup (load_name e) s = Some g ->
  get_attendance_dataframe e gc w = (Ok r, w1) -> w1 = w.
Proof.
  intros Hs Hl. unfold get_attendance_dataframe, load_name in *.
  set (n := get_weekly_worksheet_name (loc e) (now_load e)) in *.
  destruct gc as [c|]; [|unfold ret; intros H; now injection H].
  run_effects.
  destruct (f_open e); [discriminate|].
  destruct (f_worksheet e); reduce_with Hs Hl; [discriminate|].
  destruct (f_get_all_values e); reduce_with Hs Hl; [discriminate|].
  destruct g as [|rs]; cbv beta iota.
  - intros H; now injection H.
  - destruct (List.length (columns :: map cells rs) <=? 1)%nat;
      intros H; now injection H.
Qed.

(** A load that returns rows returned them with a handle, from a world it
    left as it was. *)
Lemma load_rows_inv (e : env) (gc : option client) (w w1 : world)
    (df : DataFrame) (sh : sh_or_error) :
  get_attendance_dataframe e gc w = (Ok (df, sh), w1) -> df <> [] ->
  load_failed df sh = false /\ w1 = w /\
  partition (load_name e) w = Some df.
Proof.
  intros Hl Hne. split.
  - unfold load_failed. destruct df; [now elim Hne | reflexivity].
  - destruct sh as [m|h].
    + apply load_error_empty in Hl as [-> _]. now elim Hne.
    + destruct (load_handle_inv _ _ _ _ _ _ Hl) as (s1 & Hs1 & Hrows & Hsame).
      specialize (Hsame Hne). subst w1. split; [reflexivity|].
      unfold partition. rewrite Hs1.
      destruct Hrows as [-> | [_ ->]]; [reflexivity | now elim Hne].
Qed.

(** C3: an input that contains an underscore is cut at its first underscore
    only; the code is the uppercased left part and the name the uppercased
    right part with every dash replaced by a space.  Nothing else is
    validated: on a loaded partition such an input is never answered with
    INVALID_FORMAT, and the result carries that code and that name. *)
Theorem qr_payload_cut_at_first_underscore (s : string) :
  Text.contains "_" s = true ->
  exists l r,
    s = l ++ String "_" r /\ Text.contains "_" l = false /\
    parse_qr_data s
    = Some (Text.upper l, Text.upper (Text.replace_char "-" " " r)) /\
    forall e gc w df sh w1,
      get_attendance_dataframe e gc w = (Ok (df, sh), w1) ->
      load_failed df sh = false ->
      exists res w2,
        process_qrcode e s gc w = (Ok res, w2) /\
        kode res = Some (Text.upper l) /\
        nama res = Text.upper (Text.replace_char "-" " " r) /\
        (status res = "SUCCESS" \/ status res = "REGISTERED").
Proof.
  intros H. destruct (contains_cut _ _ H) as (l & r & -> & Hl).
  exists l, r. pose proof (parse_cut l r Hl) as Hp.
  repeat split; try assumption.
  intros e gc w df sh w1 Hload Hg.
  destruct (isin (Text.upper l) (map Kode df)) eqn:Hin.
  - destruct (scan_registered _ _ _ _ _ _ _ _ _ Hload Hg Hp Hin)
      as (r0 & rest & _ & Hrun).
    do 2 eexists. split; [exact Hrun|]. simpl. auto.
  - destruct (scan_success _ _ _ _ _ _ _ _ _ Hload Hg Hp Hin)
      as (w2 & _ & Hrun).
    do 2 eexists. split; [exact Hrun|]. simpl. auto.
Qed.

(** C4: on a loaded partition, an input without an underscore is answered
    with INVALID_FORMAT; the result has neither a kode nor a
    recent_attendance field, and the world is the one the load left: no
    row is appended and no save is made.  When the worksheet of the day
    already existed the world is the initial one. *)
Theorem no_underscore_invalid_format (e : env) (qr : string)
    (gc : option client) (w w1 : world) (df : DataFrame) (sh : sh_or_error) :
  Text.contains "_" qr = false ->
  get_attendance_dataframe e gc w = (Ok (df, sh), w1) ->
  load_failed df sh = false ->
  process_qrcode e qr gc w
  = (Ok (mkResult "Format QR Tidak Valid" None "INVALID_FORMAT"
           (time_now_hms e) None), w1) /\
  (forall rs, partition (load_name e) w = Some rs -> w1 = w).
Proof.
  intros Hc Hload Hg. split.
  - exact (scan_invalid_format _ _ _ _ _ _ _ Hload Hg (parse_none _ Hc)).
  - intros rs Hp. unfold partition in Hp.
    destruct (store w) as [s|] eqn:Hs; [|discriminate].
    destruct (lookup (load_name e) s) as [g|] eqn:Hlk; [|discriminate].
    exact (load_existing_unchanged _ _ _ _ _ _ _ Hs Hlk Hload).
Qed.

(** C5: absent credentials give no client; without a client, and whenever
    the load returns an empty table with an error string, every payload is
    answered with CONNECTION_ERROR, without a kode or recent_attendance
    field, and the world is left as it was (nothing parsed, mutated or
    saved). *)
Theorem connection_error_for_every_payload :
  (forall authorize w, fst (get_gspread_client authorize None w) = Ok None) /\
  (forall e qr w,
      process_qrcode e qr None w
      = (Ok (mkResult "Gagal Koneksi GSheets" None "CONNECTION_ERROR"
               (time_now_hms e) None), w)) /\
  (forall e qr gc w w1 df m,
      get_attendance_dataframe e gc w = (Ok (df, ErrorStr m), w1) ->
      empty df = true ->
      process_qrcode e qr gc w
      = (Ok (mkResult "Gagal Koneksi GSheets" None "CONNECTION_ERROR"
               (time_now_hms e) None), w1) /\ w1 = w).
Proof.
  split; [reflexivity|]. split; [reflexivity|].
  intros e qr gc w w1 df m Hload He. split.
  - apply (scan_connection_error _ _ _ _ _ _ _ Hload).
    unfold load_failed. now rewrite He.
  - now apply load_error_empty in Hload.
Qed.

(** C7 (the code breaks it): with a client but no spreadsheet of the fixed
    title, [gc.open] raises SpreadsheetNotFound; the handler of the load
    names WorksheetNotFound, so the exception leaves the load,
    [process_qrcode] and the /scan handler.  An APIError of the first
    remote call leaves them in the same way. *)
Theorem missing_spreadsheet_escapes (l : Clock.locale)
    (ta tb tc : Clock.datetime) (out : list string) :
  let w := mkWorld None out in
  get_attendance_dataframe (calm l ta tb tc) (Some Client) w
  = (Raise SpreadsheetNotFound, w) /\
  process_qrcode (calm l ta tb tc) "A1_BUDI-SANTOSO" (Some Client) w
  = (Raise SpreadsheetNotFound, w) /\
  scan (calm l ta tb tc) (Some Client) (Some "A1_BUDI-SANTOSO") w
  = (Raise SpreadsheetNotFound, w) /\
  forall s msg,
    scan (mkEnv l ta tb tc (Some msg) None None None None None None)
      (Some Client) (Some "A1_BUDI-SANTOSO") (mkWorld (Some s) out)
    = (Raise (APIError msg), mkWorld (Some s) out).
Proof. repeat split. Qed.

(** C9: the partition name is computed from the clock reading alone: it is
    the uppercased weekday name of the locale, an underscore and the
    zero-padded DD-MM-YYYY date; two readings on the same calendar day give
    the same name and two readings on different days give different
    names. *)
Theorem worksheet_name_per_calendar_day (l : Clock.locale)
    (a b : Clock.datetime) :
  Clock.valid_date a -> Clock.valid_date b ->
  get_weekly_worksheet_name l a
  = Text.upper (Clock.day_name l (Clock.weekday a)) ++ "_"
      ++ Clock.strftime_dmY a /\
  (Clock.same_calendar_day a b ->
   get_weekly_worksheet_name l a = get_weekly_worksheet_name l b) /\
  (~ Clock.same_calendar_day a b ->
   get_weekly_worksheet_name l a <> get_weekly_worksheet_name l b).
Proof.
  intros Ha Hb. split; [apply worksheet_name_shape|]. split.
  - destruct a, b. unfold Clock.same_calendar_day. simpl.
    intros (-> & -> & ->). reflexivity.
  - intros Hne Heq. apply Hne.
    rewrite !worksheet_name_shape, <- !append_assoc in Heq.
    apply append_tail_inj in Heq; [|reflexivity].
    now apply strftime_dmY_inj.
Qed.

(** C6: a result has a recent_attendance field exactly on SUCCESS and
    REGISTERED.  The list has at most ten records with the fields Nama and
    Waktu, is in descending string order of Waktu, and is the first ten
    records of the table in that order, where the table is the loaded one
    on REGISTERED and the loaded one with the new row on SUCCESS. *)
Theorem recent_attendance_top_ten (e : env) (qr : string)
    (gc : option client) (w w2 : world) (res : ScanResult) :
  process_qrcode e qr gc w = (Ok res, w2) ->
  match recent_attendance res with
  | Some l =>
      (List.length l <= 10)%nat /\
      Sorted recent_later_first l /\
      exists df sh w1 table full,
        get_attendance_dataframe e gc w = (Ok (df, sh), w1) /\
        ((status res = "REGISTERED" /\ table = df) \/
         (status res = "SUCCESS" /\
          exists k, kode res = Some k /\
            table = loc_append df (mkRow k (nama res) (waktu res)))) /\
        Permutation full table /\ Sorted later_first full /\
        l = to_records (firstn 10 full)
  | None => status res = "CONNECTION_ERROR" \/ status res = "INVALID_FORMAT"
  end.
Proof.
  intros H.
  destruct (get_attendance_dataframe e gc w) as [[[df sh]|x] w1] eqn:Hload;
    [|unfold process_qrcode, bind in H; rewrite Hload in H; discriminate].
  destruct (load_failed df sh) eqn:Hg.
  { rewrite (scan_connection_error _ _ _ _ _ _ _ Hload Hg) in H.
    injection H as <- _. simpl. now left. }
  destruct (parse_qr_data qr) as [[k n]|] eqn:Hp.
  2:{ rewrite (scan_invalid_format _ _ _ _ _ _ _ Hload Hg Hp) in H.
      injection H as <- _. simpl. now right. }
  destruct (isin k (map Kode df)) eqn:Hin.
  - destruct (scan_registered _ _ _ _ _ _ _ _ _ Hload Hg Hp Hin)
      as (r0 & rest & _ & Hrun).
    rewrite Hrun in H. injection H as <- _. simpl.
    split; [apply recent_of_length|]. split; [apply recent_of_sorted|].
    exists df, sh, w1, df, (sort_values_Waktu_desc df).
    split; [reflexivity|]. split; [now left|].
    split; [apply sort_values_perm|]. split; [apply sort_values_sorted|].
    reflexivity.
  - destruct (scan_success _ _ _ _ _ _ _ _ _ Hload Hg Hp Hin)
      as (w3 & _ & Hrun).
    rewrite Hrun in H. injection H as <- _. simpl.
    split; [apply recent_of_length|]. split; [apply recent_of_sorted|].
    exists df, sh, w1, (loc_append df (mkRow k n (time_now_hms e))),
      (sort_values_Waktu_desc (loc_append df (mkRow k n (time_now_hms e)))).
    split; [reflexivity|]. split; [right; split; eauto|].
    split; [apply sort_values_perm|]. split; [apply sort_values_sorted|].
    reflexivity.
Qed.

(** C8: when the body of the save raises an exception while a new code is
    recorded, the exception is printed and not raised again: the scan still
    returns SUCCESS, with recent_attendance computed over the in-memory
    table that holds the new row, and the store is the one the load left. *)
Theorem write_failure_still_success (e : env) (qr : string)
    (gc : option client) (w w1 wx : world) (df : DataFrame)
    (sh : sh_or_error) (k n : string) (x : exn) :
  get_attendance_dataframe e gc w = (Ok (df, sh), w1) ->
  load_failed df sh = false ->
  parse_qr_data qr = Some (k, n) ->
  isin k (map Kode df) = false ->
  save_body e (loc_append df (mkRow k n (time_now_hms e))) sh w1
  = (Raise x, wx) ->
  process_qrcode e qr gc w
  = (Ok (mkResult n (Some k) "SUCCESS" (time_now_hms e)
           (Some (recent_of (loc_append df (mkRow k n (time_now_hms e)))))),
     mkWorld (store w1)
       (stdout w1 ++ ["Gagal menyimpan data ke GSheets: " ++ exn_str x])).
Proof.
  intros Hload Hg Hp Hin Hbody.
  destruct (scan_success _ _ _ _ _ _ _ _ _ Hload Hg Hp Hin) as (w2 & Hs & Hrun).
  rewrite save_run, Hbody in Hs. injection Hs as <-. exact Hrun.
Qed.

(** C10: when the table has a row with the scanned code, the result is
    REGISTERED with the name parsed from the scanned payload, whatever name
    the row stores, the Waktu of the first row with that code, and the
    world, hence the stored row, is left as it was. *)
Theorem registered_reports_scanned_name (e : env) (c n2 : string)
    (gc : option client) (w w1 : world) (df : DataFrame) (sh : sh_or_error)
    (r : Row) :
  get_attendance_dataframe e gc w = (Ok (df, sh), w1) ->
  In r df ->
  Text.contains "_" c = false ->
  Text.upper c = Kode r ->
  exists r0 rest,
    where_Kode (Kode r) df = r0 :: rest /\
    process_qrcode e (c ++ String "_" n2) gc w
    = (Ok (mkResult (Text.upper (Text.replace_char "-" " " n2))
             (Some (Kode r)) "REGISTERED" (Waktu r0) (Some (recent_of df))),
       w) /\
    partition (load_name e) w = Some df.
Proof.
  intros Hload Hr Hc Hk.
  assert (Hne : df <> []) by (intros ->; contradiction).
  destruct (load_rows_inv _ _ _ _ _ _ Hload Hne) as (Hg & -> & Hpart).
  pose proof (parse_cut c n2 Hc) as Hp. rewrite Hk in Hp.
  assert (Hin : isin (Kode r) (map Kode df) = true)
    by (apply isin_In; now exists r).
  destruct (scan_registered _ _ _ _ _ _ _ _ _ Hload Hg Hp Hin)
    as (r0 & rest & Hw & Hrun).
  exists r0, rest. auto.
Qed.

(** What a calm save to the loaded partition leaves in it. *)
Lemma save_after_load (e : env) (gc : option client) (w w1 w2 : world)
    (df df' : DataFrame) (sh : sh_or_error) :
  get_attendance_dataframe e gc w = (Ok (df, sh), w1) ->
  load_failed df sh = false ->
  save_calm e -> save_name e = load_name e ->
  (List.length df <= List.length df')%nat ->
  save_attendance_dataframe e df' sh w1 = (Ok tt, w2) ->
  partition (load_name e) w2 = Some df'.
Proof.
  intros Hload Hg Hcalm Hname Hlen Hsave.
  destruct sh as [m|h].
  { apply load_error_empty in Hload as (-> & _). discriminate Hg. }
  destruct (load_handle_inv _ _ _ _ _ _ Hload) as (s1 & Hs1 & Hrows & _).
  assert (exists g, lookup (save_name e) s1 = Some g /\
            match g with
            | Blank => df'
            | Table rs => (df' ++ skipn (List.length df') rs)%list
            end = df') as (g & Hlk & Hg').
  { rewrite Hname. destruct Hrows as [H | [H _]]; eexists; split; eauto.
    simpl. rewrite skipn_all2 by exact Hlen. apply app_nil_r. }
  rewrite (save_calm_run _ _ _ _ _ _ Hcalm Hs1 Hlk) in Hsave.
  injection Hsave as <-. unfold partition. cbn [store].
  rewrite <- Hname, (lookup_update _ _ _ _ Hlk).
  exact (f_equal Some Hg').
Qed.

(** C2: on a loaded partition that lacks the code of a valid payload, the
    scan appends the one row (code, name, current time) to the table,
    saves the table with that row and returns SUCCESS with the time of the
    row.  When the save goes through, the partition of the day holds the
    loaded rows followed by the new row. *)
Theorem new_code_appended_and_saved (e : env) (qr : string)
    (gc : option client) (w w1 : world) (df : DataFrame) (sh : sh_or_error)
    (k n : string) :
  get_attendance_dataframe e gc w = (Ok (df, sh), w1) ->
  load_failed df sh = false ->
  parse_qr_data qr = Some (k, n) ->
  isin k (map Kode df) = false ->
  let df' := (df ++ [mkRow k n (time_now_hms e)])%list in
  exists w2,
    save_attendance_dataframe e df' sh w1 = (Ok tt, w2) /\
    process_qrcode e qr gc w
    = (Ok (mkResult n (Some k) "SUCCESS" (time_now_hms e)
             (Some (recent_of df'))), w2) /\
    (save_calm e -> save_name e = load_name e ->
     partition (load_name e) w2 = Some df').
Proof.
  intros Hload Hg Hp Hin df'.
  destruct (scan_success _ _ _ _ _ _ _ _ _ Hload Hg Hp Hin) as (w2 & Hs & Hrun).
  exists w2. split; [exact Hs|]. split; [exact Hrun|].
  intros Hcalm Hname.
  apply (save_after_load _ _ _ _ _ _ _ _ Hload Hg Hcalm Hname); [|exact Hs].
  subst df'. rewrite length_app. lia.
Qed.

Lemma isin_last (k n t : string) (df : DataFrame) :
  isin k (map Kode (df ++ [mkRow k n t])) = true.
Proof. apply isin_In. eexists. split; [apply in_elt | reflexivity]. Qed.

(** C1 (amended): on a partition that does not hold the code yet, when no
    remote call of the first scan and of the second load fails and both
    scans fall into that partition, the first scan returns SUCCESS, the
    second REGISTERED with the time the first one recorded, the second
    scan changes nothing, and the partition then has exactly one row of
    the code. *)
Theorem repeat_scan_registered_with_first_time (e1 e2 : env) (p1 p2 : string)
    (c : client) (w : world) (s : spreadsheet) (k n1 n2 : string) :
  store w = Some s ->
  load_calm e1 -> save_calm e1 -> load_calm e2 ->
  save_name e1 = load_name e1 -> load_name e2 = load_name e1 ->
  parse_qr_data p1 = Some (k, n1) -> parse_qr_data p2 = Some (k, n2) ->
  (forall rs, partition (load_name e1) w = Some rs ->
              isin k (map Kode rs) = false) ->
  exists r1 r2 w1 rows,
    process_qrcode e1 p1 (Some c) w = (Ok r1, w1) /\
    process_qrcode e2 p2 (Some c) w1 = (Ok r2, w1) /\
    status r1 = "SUCCESS" /\ status r2 = "REGISTERED" /\
    waktu r1 = time_now_hms e1 /\ waktu r2 = waktu r1 /\
    partition (load_name e1) w1 = Some rows /\
    List.length (where_Kode k rows) = 1%nat.
Proof.
  intros Hs Hc1 Hsv Hc2 Hn1 Hn2 Hp1 Hp2 Habs.
  destruct (load_calm_run e1 c w s Hc1 Hs) as (wl & Hload1).
  set (df := match lookup (load_name e1) s with
             | Some (Table rs) => rs
             | _ => []
             end) in *.
  assert (Hin : isin k (map Kode df) = false).
  { subst df. unfold partition in Habs. rewrite Hs in Habs.
    destruct (lookup (load_name e1) s) as [[|rs]|]; try reflexivity.
    now apply Habs. }
  assert (Hg : load_failed df (Handle Spreadsheet) = false)
    by apply andb_false_r.
  destruct (scan_success _ _ _ _ _ _ _ _ _ Hload1 Hg Hp1 Hin)
    as (w1 & Hsave & Hrun1).
  set (row := mkRow k n1 (time_now_hms e1)) in *.
  assert (Hpart : partition (load_name e1) w1 = Some (loc_append df row)).
  { apply (save_after_load _ _ _ _ _ _ _ _ Hload1 Hg Hsv Hn1); [|exact Hsave].
    unfold loc_append. rewrite length_app. lia. }
  unfold partition in Hpart.
  destruct (store w1) as [s1|] eqn:Hs1; [|discriminate].
  destruct (lookup (load_name e1) s1) as [[|rs]|] eqn:Hlk1; try discriminate.
  injection Hpart as ->.
  destruct (load_calm_run e2 c w1 s1 Hc2 Hs1) as (wl2 & Hload2).
  rewrite Hn2, Hlk1 in Hload2.
  assert (Hlk2 : lookup (load_name e2) s1 = Some (Table (loc_append df row)))
    by (rewrite Hn2; exact Hlk1).
  pose proof (load_existing_unchanged _ _ _ _ _ _ _ Hs1 Hlk2 Hload2) as ->.
  assert (Hg2 : load_failed (loc_append df row) (Handle Spreadsheet) = false)
    by apply andb_false_r.
  destruct (scan_registered _ _ _ _ _ _ _ _ _ Hload2 Hg2 Hp2
              (isin_last k n1 _ df)) as (r0 & rest & Hw & Hrun2).
  unfold loc_append in Hw. rewrite where_Kode_app, (where_Kode_absent _ _ Hin) in Hw.
  simpl in Hw. rewrite String.eqb_refl in Hw. injection Hw as <- <-.
  do 4 eexists. split; [exact Hrun1|]. split; [exact Hrun2|].
  repeat split.
  - unfold partition. now rewrite Hs1, Hlk1.
  - unfold loc_append.
    rewrite where_Kode_app, (where_Kode_absent _ _ Hin). simpl.
    now rewrite String.eqb_refl.
Qed.

(** ** The claims at the scenarios *)

Lemma qr_payload_cut_at_first_underscore_witness :
  Text.contains "_" "a1_budi-santoso_ii" = true /\
  exists l r,
    "a1_budi-santoso_ii" = l ++ String "_" r /\
    Text.contains "_" l = false /\
    parse_qr_data "a1_budi-santoso_ii"
    = Some (Text.upper l, Text.upper (Text.replace_char "-" " " r)).
Proof.
  split; [reflexivity|].
  destruct (qr_payload_cut_at_first_underscore "a1_budi-santoso_ii" eq_refl)
    as (l & r & H1 & H2 & H3 & _).
  exists l, r. auto.
Defined.

Lemma no_underscore_invalid_format_witness :
  Text.contains "_" "NOSEPARATORHERE" = false /\
  process_qrcode second_scan "NOSEPARATORHERE" (Some Client) friday_world
  = (Ok (mkResult "Format QR Tidak Valid" None "INVALID_FORMAT" "07:06:00"
           None), friday_world).
Proof.
  split; [reflexivity|].
  exact (proj1 (no_underscore_invalid_format second_scan "NOSEPARATORHERE"
                  (Some Client) friday_world friday_world [budi]
                  (Handle Spreadsheet) eq_refl eq_refl eq_refl)).
Defined.

Lemma connection_error_for_every_payload_witness :
  get_attendance_dataframe first_scan None fresh_world
  = (Ok ([], ErrorStr "Gagal koneksi GSheets"), fresh_world) /\
  process_qrcode first_scan "A1_BUDI-SANTOSO" None fresh_world
  = (Ok (mkResult "Gagal Koneksi GSheets" None "CONNECTION_ERROR" "07:05:09"
           None), fresh_world).
Proof.
  split; [reflexivity|].
  exact (proj1 (proj2 (proj2 connection_error_for_every_payload)
                  first_scan "A1_BUDI-SANTOSO" None fresh_world fresh_world
                  [] "Gagal koneksi GSheets" eq_refl eq_refl)).
Defined.

Lemma recent_attendance_top_ten_witness :
  process_qrcode second_scan "B2_SITI-AMINAH" (Some Client) friday_world
  = (Ok (mkResult "SITI AMINAH" (Some "B2") "SUCCESS" "07:06:00"
           (Some [mkRecent "SITI AMINAH" "07:06:00";
                  mkRecent "BUDI SANTOSO" "07:05:09"])),
     mkWorld
       (Some [("JUMAT_24-10-2025",
               Table [budi; mkRow "B2" "SITI AMINAH" "07:06:00"])])
       ["Data absensi berhasil disimpan ke Google Sheet: Rekap Absensi Tapak Suci Sidayu/JUMAT_24-10-2025"]) /\
  Sorted recent_later_first
    [mkRecent "SITI AMINAH" "07:06:00"; mkRecent "BUDI SANTOSO" "07:05:09"].
Proof.
  split; [reflexivity|].
  exact (proj1 (proj2 (recent_attendance_top_ten second_scan "B2_SITI-AMINAH"
                         (Some Client) friday_world _ _ eq_refl))).
Defined.

Lemma write_failure_still_success_witness :
  save_body failing_write [budi] (Handle Spreadsheet)
    (mkWorld (Some [("JUMAT_24-10-2025", Table [])])
       ["Worksheet baru 'JUMAT_24-10-2025' telah dibuat."])
  = (Raise (APIError "503 Service Unavailable"),
     mkWorld (Some [("JUMAT_24-10-2025", Table [])])
       ["Worksheet baru 'JUMAT_24-10-2025' telah dibuat."]) /\
  process_qrcode failing_write "A1_BUDI-SANTOSO" (Some Client) fresh_world
  = (Ok (mkResult "BUDI SANTOSO" (Some "A1") "SUCCESS" "07:05:09"
           (Some [mkRecent "BUDI SANTOSO" "07:05:09"])), unsaved_world).
Proof.
  split; [reflexivity|].
  exact (write_failure_still_success failing_write "A1_BUDI-SANTOSO"
           (Some Client) fresh_world _ _ [] (Handle Spreadsheet)
           "A1" "BUDI SANTOSO" (APIError "503 Service Unavailable")
           eq_refl eq_refl eq_refl eq_refl eq_refl).
Defined.

Lemma worksheet_name_per_calendar_day_witness :
  Clock.valid_date friday_0705 /\ Clock.valid_date saturday_0705 /\
  get_weekly_worksheet_name Clock.id_ID friday_0705 = "JUMAT_24-10-2025" /\
  get_weekly_worksheet_name Clock.id_ID friday_0705
  <> get_weekly_worksheet_name Clock.id_ID saturday_0705.
Proof.
  assert (Ha : Clock.valid_date friday_0705)
    by (unfold Clock.valid_date; simpl; lia).
  assert (Hb : Clock.valid_date saturday_0705)
    by (unfold Clock.valid_date; simpl; lia).
  destruct (worksheet_name_per_calendar_day Clock.id_ID friday_0705
              saturday_0705 Ha Hb) as (H1 & _ & H3).
  split; [exact Ha|]. split; [exact Hb|]. split; [rewrite H1; reflexivity|].
  apply H3. unfold Clock.same_calendar_day. simpl. lia.
Defined.

Lemma registered_reports_scanned_name_witness :
  In budi [budi] /\ Text.upper "a1" = Kode budi /\
  process_qrcode second_scan ("a1" ++ String "_" "orang-lain") (Some Client)
    friday_world
  = (Ok (mkResult "ORANG LAIN" (Some "A1") "REGISTERED" "07:05:09"
           (Some [mkRecent "BUDI SANTOSO" "07:05:09"])), friday_world) /\
  partition (load_name second_scan) friday_world = Some [budi].
Proof.
  split; [now left|]. split; [reflexivity|].
  destruct (registered_reports_scanned_name second_scan "a1" "orang-lain"
              (Some Client) friday_world friday_world [budi]
              (Handle Spreadsheet) budi eq_refl (or_introl eq_refl)
              eq_refl eq_refl) as (r0 & rest & Hw & Hrun & Hpart).
  injection Hw as <- _. split; [exact Hrun | exact Hpart].
Defined.

(** The scenario of the first scan: A1_BUDI-SANTOSO on an empty partition. *)
Lemma new_code_appended_and_saved_witness :
  parse_qr_data "A1_BUDI-SANTOSO" = Some ("A1", "BUDI SANTOSO") /\
  process_qrcode first_scan "A1_BUDI-SANTOSO" (Some Client) fresh_world
  = (Ok (mkResult "BUDI SANTOSO" (Some "A1") "SUCCESS" "07:05:09"
           (Some [mkRecent "BUDI SANTOSO" "07:05:09"])), saved_world) /\
  partition "JUMAT_24-10-2025" saved_world
  = Some [mkRow "A1" "BUDI SANTOSO" "07:05:09"].
Proof.
  split; [reflexivity|].
  destruct (new_code_appended_and_saved first_scan "A1_BUDI-SANTOSO"
              (Some Client) fresh_world _ [] (Handle Spreadsheet)
              "A1" "BUDI SANTOSO" eq_refl eq_refl eq_refl eq_refl)
    as (w2 & Hsave & Hrun & Hpart).
  injection Hsave as <-. split; [exact Hrun|].
  apply Hpart; repeat split.
Defined.

(** The scenario of the second scan of the same payload. *)
Lemma repeat_scan_registered_with_first_time_witness :
  exists r1 r2 w1 rows,
    process_qrcode first_scan "A1_BUDI-SANTOSO" (Some Client) fresh_world
    = (Ok r1, w1) /\
    process_qrcode second_scan "A1_BUDI-SANTOSO" (Some Client) w1
    = (Ok r2, w1) /\
    status r1 = "SUCCESS" /\ status r2 = "REGISTERED" /\
    waktu r1 = "07:05:09" /\ waktu r2 = waktu r1 /\
    partition "JUMAT_24-10-2025" w1 = Some rows /\
    List.length (Pandas.where_Kode "A1" rows) = 1%nat.
Proof.
  apply (repeat_scan_registered_with_first_time first_scan second_scan
           "A1_BUDI-SANTOSO" "A1_BUDI-SANTOSO" Client fresh_world []
           "A1" "BUDI SANTOSO" "BUDI SANTOSO");
    try reflexivity; try (repeat split).
  intros rs H. discriminate H.
Defined.

(** C1 as stated fails.  On a partition that already holds the code, the
    first of the two scans returns REGISTERED, not SUCCESS.  And when the
    write of the first scan fails, which the first scan reports as
    SUCCESS, the second scan returns SUCCESS again, with its own time. *)
Lemma repeat_scan_counterexample :
  (process_qrcode first_scan "A1_BUDI-SANTOSO" (Some Client) friday_world
   = (Ok (mkResult "BUDI SANTOSO" (Some "A1") "REGISTERED" "07:05:09"
            (Some [mkRecent "BUDI SANTOSO" "07:05:09"])), friday_world)) /\
  (process_qrcode failing_write "A1_BUDI-SANTOSO" (Some Client) fresh_world
   = (Ok (mkResult "BUDI SANTOSO" (Some "A1") "SUCCESS" "07:05:09"
            (Some [mkRecent "BUDI SANTOSO" "07:05:09"])), unsaved_world)) /\
  (fst (process_qrcode second_scan "A1_BUDI-SANTOSO" (Some Client)
          unsaved_world)
   = Ok (mkResult "BUDI SANTOSO" (Some "A1") "SUCCESS" "07:06:00"
           (Some [mkRecent "BUDI SANTOSO" "07:06:00"]))) /\
  "REGISTERED" <> "SUCCESS" /\ "07:06:00" <> "07:05:09".
Proof. repeat split; discriminate. Qed.

End Claims.

(** * Further properties of the program *)

(** ** The payload parser *)

Section ParserFacts.

Import Text.

Lemma upper_char_idem (c : ascii) : upper_char (upper_char c) = upper_char c.
Proof. destruct c as [[] [] [] [] [] [] [] []]; reflexivity. Qed.

Lemma upper_char_eqb_underscore (c : ascii) :
  Ascii.eqb (upper_char c) "_" = Ascii.eqb c "_".
Proof. destruct c as [[] [] [] [] [] [] [] []]; reflexivity. Qed.

Lemma upper_char_eqb_dash (c : ascii) :
  Ascii.eqb (upper_char c) "-" = Ascii.eqb c "-".
Proof. destruct c as [[] [] [] [] [] [] [] []]; reflexivity. Qed.

Lemma upper_idem (s : string) : upper (upper s) = upper s.
Proof.
  induction s as [|c s IH]; simpl; [reflexivity|].
  now rewrite upper_char_idem, IH.
Qed.

Lemma upper_length (s : string) : String.length (upper s) = String.length s.
Proof. induction s as [|c s IH]; simpl; [reflexivity | now rewrite IH]. Qed.


Lemma contains_underscore_upper (s : string) :
  contains "_" (upper s) = contains "_" s.
Proof.
  induction s as [|c s IH]; simpl; [reflexivity|].
  now rewrite upper_char_eqb_underscore, IH.
Qed.



Lemma replace_dash_upper (s : string) :
  replace_char "-" " " (upper s) = upper (replace_char "-" " " s).
Proof.
  induction s as [|c s IH]; simpl; [reflexivity|].
  rewrite IH, upper_char_eqb_dash.
  now destruct (Ascii.eqb c "-").
Qed.


(** X1: letter case does not matter to the parser: a payload and its
    uppercased form parse to the same code and name (or both fail). *)
Theorem parse_ignores_case (s : string) :
  parse_qr_data (upper s) = parse_qr_data s.
Proof.
  destruct (contains "_" s) eqn:Hc.
  - destruct (contains_cut _ _ Hc) as (l & r & -> & Hl).
    rewrite (parse_cut _ _ Hl).
    rewrite upper_append. simpl upper.
    change (upper_char "_") with "_"%char.
    rewrite parse_cut by now rewrite contains_underscore_upper.
    now rewrite upper_idem, replace_dash_upper, upper_idem.
  - rewrite (parse_none _ Hc).
    apply parse_none. now rewrite contains_underscore_upper.
Qed.



End ParserFacts.

(** ** What loading and saving do to the store *)

Section StoreFacts.

Import Pandas.

Lemma lookup_update_other (t n : string) (g : grid) (s : spreadsheet) :
  t <> n -> lookup t (update n g s) = lookup t s.
Proof.
  intros Hne. induction s as [|[t' x] s IH]; simpl; [reflexivity|].
  destruct (String.eqb t' n) eqn:En; simpl.
  - apply String.eqb_eq in En. subst t'.
    destruct (String.eqb n t) eqn:Et; [|reflexivity].
    apply String.eqb_eq in Et. congruence.
  - now rewrite IH.
Qed.

Lemma lookup_app_other (t n : string) (g : grid) (s : spreadsheet) :
  t <> n -> lookup t (s ++ [(n, g)])%list = lookup t s.
Proof.
  intros Hne. induction s as [|[t' x] s IH]; simpl.
  - destruct (String.eqb n t) eqn:Et; [|reflexivity].
    apply String.eqb_eq in Et. congruence.
  - now rewrite IH.
Qed.

(** Every way a load can end: it leaves the world as it is, or the
    worksheet of the day was missing and it was created, blank when the
    header row could not be written. *)
Lemma load_world_cases (e : env) (gc : option client) (w w1 : world)
    (r : result (DataFrame * sh_or_error)) :
  get_attendance_dataframe e gc w = (r, w1) ->
  w1 = w \/
  exists s, store w = Some s /\ lookup (load_name e) s = None /\
    (((exists m, r = Raise (APIError m)) /\
      w1 = mkWorld (Some (s ++ [(load_name e, Blank)])%list) (stdout w)) \/
     (r = Ok ([], Handle Spreadsheet) /\
      w1 = mkWorld
             (Some (update (load_name e) (Table [])
                      (s ++ [(load_name e, Blank)])%list))
             (stdout w ++ ["Worksheet baru '" ++ load_name e
                             ++ "' telah dibuat."]))).
Proof.
  unfold get_attendance_dataframe, load_name.
  set (n := get_weekly_worksheet_name (loc e) (now_load e)).
  destruct gc as [c|]; [|unfold ret; intros H; injection H as _ <-; now left].
  run_effects.
  destruct (f_open e); [intros H; injection H as _ <-; now left|].
  destruct (store w) as [s|] eqn:Hs; [|intros H; injection H as _ <-; now left].
  destruct (f_worksheet e); [intros H; injection H as _ <-; now left|].
  rewrite Hs.
  destruct (lookup n s) as [g|] eqn:Hl.
  - destruct (f_get_all_values e); [intros H; injection H as _ <-; now left|].
    rewrite Hs, Hl. destruct g as [|rs].
    + simpl. intros H; injection H as _ <-; now left.
    + destruct (List.length (columns :: map cells rs) <=? 1)%nat;
        intros H; injection H as _ <-; now left.
  - destruct (f_add_worksheet e); [intros H; injection H as _ <-; now left|].
    rewrite Hs, Hl.
    destruct (f_append_row e) as [m|].
    + intros H; injection H as <- <-. right. exists s.
      split; [reflexivity|]. split; [assumption|]. left. eauto.
    + cbn [store stdout]. rewrite (lookup_app_new _ Blank _ Hl).
      intros H; injection H as <- <-. right. exists s.
      split; [reflexivity|]. split; [assumption|]. right. split; reflexivity.
Qed.


(** Every way a save can end: it returns normally, and either the store is
    as before or the worksheet the save names was overwritten from its
    first row on. *)
Lemma save_world_cases (e : env) (df : DataFrame) (sh : sh_or_error)
    (w : world) :
  exists w2,
    save_attendance_dataframe e df sh w = (Ok tt, w2) /\
    (store w2 = store w \/
     exists s g,
       store w = Some s /\ lookup (save_name e) s = Some g /\
       store w2
       = Some (update (save_name e)
                 (Table match g with
                        | Blank => df
                        | Table rs => (df ++ skipn (List.length df) rs)%list
                        end) s)).
Proof.
  rewrite save_run.
  destruct (save_body e df sh w) as [[u|x] w'] eqn:E;
    [|eexists; split; [reflexivity | now left]].
  exists w'. split; [now destruct u|].
  revert E. unfold save_body, save_name.
  set (n := get_weekly_worksheet_name (loc e) (now_save e)).
  run_effects.
  destruct sh as [m|h]; [discriminate|].
  destruct (f_save_worksheet e); [discriminate|].
  destruct (store w) as [s|] eqn:Hs; [|discriminate].
  destruct (lookup n s) as [g|] eqn:Hl; [|discriminate].
  destruct (f_set_with_dataframe e); [discriminate|].
  rewrite Hs, Hl.
  destruct g; intros H; injection H as _ <-; right; exists s;
    eexists; (split; [reflexivity|]); (split; [exact Hl|]); reflexivity.
Qed.

End StoreFacts.

(** ** Invariants of a scan *)

Section ScanInvariants.

Import Pandas.

(** The five ways a scan can end. *)
Lemma scan_cases (e : env) (qr : string) (gc : option client) (w w' : world)
    (r : result ScanResult) :
  process_qrcode e qr gc w = (r, w') ->
  (exists x, r = Raise x /\ get_attendance_dataframe e gc w = (Raise x, w')) \/
  exists df sh w1,
    get_attendance_dataframe e gc w = (Ok (df, sh), w1) /\
    ((load_failed df sh = true /\ w' = w1 /\
      r = Ok (mkResult "Gagal Koneksi GSheets" None "CONNECTION_ERROR"
                (time_now_hms e) None)) \/
     (load_failed df sh = false /\ parse_qr_data qr = None /\ w' = w1 /\
      r = Ok (mkResult "Format QR Tidak Valid" None "INVALID_FORMAT"
                (time_now_hms e) None)) \/
     (exists k n r0 rest,
        load_failed df sh = false /\ parse_qr_data qr = Some (k, n) /\
        where_Kode k df = r0 :: rest /\ w' = w1 /\
        r = Ok (mkResult n (Some k) "REGISTERED" (Waktu r0)
                  (Some (recent_of df)))) \/
     (exists k n,
        load_failed df sh = false /\ parse_qr_data qr = Some (k, n) /\
        isin k (map Kode df) = false /\
        save_attendance_dataframe e
          (loc_append df (mkRow k n (time_now_hms e))) sh w1 = (Ok tt, w') /\
        r = Ok (mkResult n (Some k) "SUCCESS" (time_now_hms e)
                  (Some (recent_of
                           (loc_append df (mkRow k n (time_now_hms e)))))))).
Proof.
  intros H.
  destruct (get_attendance_dataframe e gc w) as [[[df sh]|x] w1] eqn:Hload.
  2:{ unfold process_qrcode, bind in H. rewrite Hload in H.
      injection H as <- <-. left. eauto. }
  right. exists df, sh, w1. split; [reflexivity|].
  destruct (load_failed df sh) eqn:Hg.
  { rewrite (scan_connection_error _ _ _ _ _ _ _ Hload Hg) in H.
    injection H as <- <-. left. auto. }
  destruct (parse_qr_data qr) as [[k n]|] eqn:Hp.
  2:{ rewrite (scan_invalid_format _ _ _ _ _ _ _ Hload Hg Hp) in H.
      injection H as <- <-. right; left. auto. }
  destruct (isin k (map Kode df)) eqn:Hin.
  - destruct (scan_registered _ _ _ _ _ _ _ _ _ Hload Hg Hp Hin)
      as (r0 & rest & Hw & Hrun).
    rewrite Hrun in H. injection H as <- <-.
    right; right; left. exists k, n, r0, rest. auto.
  - destruct (scan_success _ _ _ _ _ _ _ _ _ Hload Hg Hp Hin)
      as (w2 & Hs & Hrun).
    rewrite Hrun in H. injection H as <- <-.
    right; right; right. exists k, n. auto.
Qed.


(** What a scan leaves in a partition that existed before it, when the
    save names that partition. *)
Lemma scan_partition_cases (e : env) (qr : string) (gc : option client)
    (w w' : world) (r : result ScanResult) (rs : list Row) :
  save_name e = load_name e ->
  partition (load_name e) w = Some rs ->
  process_qrcode e qr gc w = (r, w') ->
  partition (load_name e) w' = Some rs \/
  exists k n,
    isin k (map Kode rs) = false /\
    partition (load_name e) w'
    = Some (rs ++ [mkRow k n (time_now_hms e)])%list.
Proof.
  intros Hname Hpart H.
  assert (Hsame : forall r1 w1,
             get_attendance_dataframe e gc w = (r1, w1) -> w1 = w).
  { intros r1 w1 Hl.
    destruct (load_world_cases _ _ _ _ _ Hl) as [-> | (s & Hs & Hno & _)];
      [reflexivity|].
    unfold partition in Hpart. rewrite Hs, Hno in Hpart. discriminate. }
  apply scan_cases in H as [(y & _ & Hload) | H].
  { rewrite (Hsame _ _ Hload). now left. }
  destruct H as (df & sh & w1 & Hload & H).
  pose proof (Hsame _ _ Hload) as ->.
  destruct H as [H | [H | [H | H]]].
  - destruct H as (_ & -> & _). now left.
  - destruct H as (_ & _ & -> & _). now left.
  - destruct H as (k & n & r0 & rest & _ & _ & _ & -> & _). now left.
  - destruct H as (k & n & Hg & _ & Hin & Hsave & _).
    assert (df = rs) as ->.
    { destruct sh as [m|h].
      - apply load_error_empty in Hload as (-> & -> & _).
        unfold partition in Hpart. discriminate Hg.
      - destruct (load_handle_inv _ _ _ _ _ _ Hload) as (s1 & Hs1 & Hrows & _).
        unfold partition in Hpart. rewrite Hs1 in Hpart.
        destruct Hrows as [Hr | [Hr _]]; rewrite Hr in Hpart;
          [now injection Hpart | discriminate]. }
    destruct (save_world_cases e (loc_append rs (mkRow k n (time_now_hms e)))
                sh w) as (w2 & Hsave' & Hw2).
    rewrite Hsave in Hsave'. injection Hsave' as <-.
    destruct Hw2 as [Hst | (s & g & Hs & Hlk & Hst)].
    + left. unfold partition in *. now rewrite Hst.
    + right. exists k, n. split; [assumption|].
      unfold partition in *. rewrite Hs, <- Hname, Hlk in Hpart.
      destruct g as [|rs']; [discriminate|]. injection Hpart as ->.
      rewrite Hst, <- Hname, (lookup_update _ _ _ _ Hlk).
      rewrite skipn_all2, app_nil_r; [reflexivity|].
      unfold loc_append. rewrite length_app. simpl. lia.
Qed.

(** X5: whatever the payload and whichever remote call fails, a scan whose
    save names the partition it loaded keeps every stored row of that
    partition, in order, and adds at most one row after them. *)
Theorem scan_keeps_stored_rows (e : env) (qr : string) (gc : option client)
    (w w' : world) (r : result ScanResult) (rs : list Row) :
  save_name e = load_name e ->
  partition (load_name e) w = Some rs ->
  process_qrcode e qr gc w = (r, w') ->
  exists added,
    partition (load_name e) w' = Some (rs ++ added)%list /\
    (List.length added <= 1)%nat.
Proof.
  intros Hname Hpart H.
  destruct (scan_partition_cases _ _ _ _ _ _ _ Hname Hpart H)
    as [Hp | (k & n & _ & Hp)].
  - exists []. rewrite app_nil_r. split; [exact Hp | simpl; lia].
  - eexists. split; [exact Hp | simpl; lia].
Qed.

(** X6: the codes of a partition stay pairwise different: when no code
    occurs twice before a scan, none occurs twice after it. *)
Theorem scan_keeps_codes_unique (e : env) (qr : string) (gc : option client)
    (w w' : world) (r : result ScanResult) (rs : list Row) :
  save_name e = load_name e ->
  partition (load_name e) w = Some rs ->
  NoDup (map Kode rs) ->
  process_qrcode e qr gc w = (r, w') ->
  exists rs', partition (load_name e) w' = Some rs' /\ NoDup (map Kode rs').
Proof.
  intros Hname Hpart Hnd H.
  destruct (scan_partition_cases _ _ _ _ _ _ _ Hname Hpart H)
    as [Hp | (k & n & Hin & Hp)].
  - now exists rs.
  - eexists. split; [exact Hp|].
    rewrite map_app. simpl.
    apply NoDup_app; [assumption | repeat constructor; simpl; tauto |].
    intros a Ha [<- | []].
    assert (isin k (map Kode rs) = true); [|congruence].
    unfold isin. apply existsb_exists. exists k.
    split; [assumption | apply String.eqb_refl].
Qed.

Lemma load_keeps_other_sheets (e : env) (gc : option client) (w w1 : world)
    (r : result (DataFrame * sh_or_error)) (t : string) :
  t <> load_name e ->
  get_attendance_dataframe e gc w = (r, w1) ->
  sheet_of t w1 = sheet_of t w /\ (store w1 = None <-> store w = None).
Proof.
  intros Hne Hl.
  destruct (load_world_cases _ _ _ _ _ Hl)
    as [-> | (s & Hs & _ & [[_ ->] | [_ ->]])].
  - split; reflexivity.
  - unfold sheet_of. cbn [store]. rewrite Hs, lookup_app_other by assumption.
    split; [reflexivity | split; discriminate].
  - unfold sheet_of. cbn [store].
    rewrite Hs, lookup_update_other, lookup_app_other by assumption.
    split; [reflexivity | split; discriminate].
Qed.

Lemma save_keeps_other_sheets (e : env) (df : DataFrame) (sh : sh_or_error)
    (w w2 : world) (t : string) :
  t <> save_name e ->
  save_attendance_dataframe e df sh w = (Ok tt, w2) ->
  sheet_of t w2 = sheet_of t w /\ (store w2 = None <-> store w = None).
Proof.
  intros Hne Hs.
  destruct (save_world_cases e df sh w) as (w3 & Hs' & Hw).
  rewrite Hs in Hs'. injection Hs' as <-.
  destruct Hw as [Hst | (s & g & Hst & _ & Hst2)].
  - unfold sheet_of. rewrite Hst. split; reflexivity.
  - unfold sheet_of. rewrite Hst, Hst2, lookup_update_other by assumption.
    split; [reflexivity | split; discriminate].
Qed.

(** X7: a scan touches no worksheet but the one it loads and the one it
    saves to: every other worksheet is as before, however the scan ends,
    and the spreadsheet neither appears nor disappears. *)
Theorem scan_keeps_other_partitions (e : env) (qr : string)
    (gc : option client) (w w' : world) (r : result ScanResult) (t : string) :
  t <> load_name e -> t <> save_name e ->
  process_qrcode e qr gc w = (r, w') ->
  sheet_of t w' = sheet_of t w /\ (store w' = None <-> store w = None).
Proof.
  intros Hl Hs H. apply scan_cases in H as [(y & _ & Hload) | H].
  { exact (load_keeps_other_sheets _ _ _ _ _ _ Hl Hload). }
  destruct H as (df & sh & w1 & Hload & H).
  pose proof (load_keeps_other_sheets _ _ _ _ _ _ Hl Hload) as Hk.
  destruct H as [H | [H | [H | H]]].
  - destruct H as (_ & -> & _). exact Hk.
  - destruct H as (_ & _ & -> & _). exact Hk.
  - destruct H as (k & n & r0 & rest & _ & _ & _ & -> & _). exact Hk.
  - destruct H as (k & n & _ & _ & _ & Hsave & _).
    destruct (save_keeps_other_sheets _ _ _ _ _ _ Hs Hsave) as [H1 H2].
    destruct Hk as [H3 H4]. rewrite H1, H3, H2, H4. split; reflexivity.
Qed.

End ScanInvariants.

(** ** Creating, saving and reading back a partition *)

Section PartitionFacts.

Import Pandas.

(** X8: the worksheet of the day is created on the first load that misses
    it, with its header and no rows, and one line is printed; the load
    returns an empty table, and a later load of the same day finds the
    worksheet, returns the empty table again and changes nothing. *)
Theorem load_creates_partition_once (e e2 : env) (c : client) (w : world)
    (s : spreadsheet) :
  load_calm e -> load_calm e2 -> load_name e2 = load_name e ->
  store w = Some s -> lookup (load_name e) s = None ->
  exists w1,
    get_attendance_dataframe e (Some c) w
    = (Ok ([], Handle Spreadsheet), w1) /\
    partition (load_name e) w1 = Some [] /\
    stdout w1 = (stdout w ++ [("Worksheet baru '" ++ load_name e
                                 ++ "' telah dibuat.")%string])%list /\
    get_attendance_dataframe e2 (Some c) w1
    = (Ok ([], Handle Spreadsheet), w1).
Proof.
  intros Hc Hc2 Hn Hs Hl.
  destruct (load_calm_run e c w s Hc Hs) as (w1 & Hload).
  rewrite Hl in Hload. exists w1. split; [exact Hload|].
  destruct (load_world_cases _ _ _ _ _ Hload)
    as [-> | (s' & Hs' & _ & [[(m & Hm) _] | [_ Hw1]])].
  - destruct (load_handle_inv _ _ _ _ _ _ Hload) as (s1 & Hs1 & Hrows & _).
    rewrite Hs in Hs1. injection Hs1 as <-.
    destruct Hrows as [H | [H _]]; congruence.
  - discriminate Hm.
  - rewrite Hs in Hs'. injection Hs' as <-.
    assert (Hlk : lookup (load_name e)
                    (update (load_name e) (Table [])
                       (s ++ [(load_name e, Blank)])%list)
                  = Some (Table []))
      by (apply lookup_update with (g := Blank); now apply lookup_app_new).
    assert (Hp : partition (load_name e) w1 = Some [])
      by (subst w1; unfold partition; cbn [store]; now rewrite Hlk).
    split; [exact Hp|]. split; [now subst w1|].
    assert (Hs1 : store w1 = Some (update (load_name e) (Table [])
                                     (s ++ [(load_name e, Blank)])%list))
      by now subst w1.
    destruct (load_calm_run e2 c w1 _ Hc2 Hs1) as (w2 & Hload2).
    rewrite Hn, Hlk in Hload2.
    assert (Hlk2 : lookup (load_name e2)
                     (update (load_name e) (Table [])
                        (s ++ [(load_name e, Blank)])%list)
                   = Some (Table []))
      by (rewrite Hn; exact Hlk).
    now rewrite (load_existing_unchanged _ _ _ _ _ _ _ Hs1 Hlk2 Hload2)
      in Hload2.
Qed.

(** X9: when the worksheet of the day is created but writing its header
    row fails, the APIError leaves the load and the worksheet stays blank;
    a later load of the same day takes the blank worksheet for an empty
    table, without creating or printing anything. *)
Theorem header_failure_leaves_blank_sheet (e e2 : env) (c : client)
    (w : world) (s : spreadsheet) (m : string) :
  f_open e = None -> f_worksheet e = None -> f_add_worksheet e = None ->
  f_append_row e = Some m ->
  store w = Some s -> lookup (load_name e) s = None ->
  load_calm e2 -> load_name e2 = load_name e ->
  let w1 := mkWorld (Some (s ++ [(load_name e, Blank)])%list) (stdout w) in
  get_attendance_dataframe e (Some c) w = (Raise (APIError m), w1) /\
  get_attendance_dataframe e2 (Some c) w1 = (Ok ([], Handle Spreadsheet), w1).
Proof.
  intros F1 F2 F3 F4 Hs Hl Hc2 Hn w1.
  assert (Hload : get_attendance_dataframe e (Some c) w
                  = (Raise (APIError m), w1)).
  { subst w1. unfold get_attendance_dataframe, load_name in *.
    set (n := get_weekly_worksheet_name (loc e) (now_load e)) in *.
    run_effects. rewrite F1, F2, F3, F4. now reduce_with Hs Hl. }
  split; [exact Hload|].
  assert (Hs1 : store w1 = Some (s ++ [(load_name e, Blank)])%list)
    by reflexivity.
  assert (Hlk : lookup (load_name e2) (s ++ [(load_name e, Blank)])%list
                = Some Blank)
    by (rewrite Hn; now apply lookup_app_new).
  destruct (load_calm_run e2 c w1 _ Hc2 Hs1) as (w2 & Hload2).
  rewrite Hlk in Hload2.
  now rewrite (load_existing_unchanged _ _ _ _ _ _ _ Hs1 Hlk Hload2) in Hload2.
Qed.

(** X10: saving and reading back: after a save without a failing call of
    a table at least as long as what the worksheet held, the partition is
    exactly that table, and a load on the same day returns exactly that
    table and changes nothing. *)
Theorem save_then_load_round_trip (e1 e2 : env) (c : client)
    (h : spreadsheet_handle) (w : world) (s : spreadsheet) (g : grid)
    (df : DataFrame) :
  save_calm e1 -> load_calm e2 -> load_name e2 = save_name e1 ->
  store w = Some s -> lookup (save_name e1) s = Some g ->
  (forall rs, g = Table rs -> (List.length rs <= List.length df)%nat) ->
  exists w1,
    save_attendance_dataframe e1 df (Handle h) w = (Ok tt, w1) /\
    partition (save_name e1) w1 = Some df /\
    get_attendance_dataframe e2 (Some c) w1
    = (Ok (df, Handle Spreadsheet), w1).
Proof.
  intros Hsv Hc2 Hn Hs Hl Hlen.
  set (w1 := mkWorld (Some (update (save_name e1) (Table df) s))
               (stdout w ++ ["Data absensi berhasil disimpan ke Google Sheet: "
                               ++ SHEET_TITLE ++ "/" ++ save_name e1])).
  assert (Hsave : save_attendance_dataframe e1 df (Handle h) w = (Ok tt, w1)).
  { rewrite (save_calm_run _ _ _ _ _ _ Hsv Hs Hl).
    destruct g as [|rs]; [reflexivity|]. cbv beta iota.
    rewrite skipn_all2 by now apply Hlen. now rewrite app_nil_r. }
  exists w1. split; [exact Hsave|].
  pose proof (lookup_update _ _ (Table df) _ Hl) as Hlk.
  split; [unfold partition, w1; cbn [store]; now rewrite Hlk|].
  destruct (load_calm_run e2 c w1 _ Hc2 eq_refl) as (w2 & Hload2).
  rewrite Hn, Hlk in Hload2.
  assert (Hlk2 : lookup (load_name e2) (update (save_name e1) (Table df) s)
                 = Some (Table df))
    by (rewrite Hn; exact Hlk).
  now rewrite (load_existing_unchanged e2 (Some c) w1 w2 _ _ _
                 (eq_refl : store w1 = Some _) Hlk2 Hload2) in Hload2.
Qed.

(** X11: the save writes the whole table, so the last writer wins: when
    two requests extend the same loaded rows by one row each and save one
    after the other, the partition ends with the rows and the row of the
    second request only. *)
Theorem later_save_overwrites (e1 e2 : env) (h : spreadsheet_handle)
    (w : world) (s : spreadsheet) (rs : list Row) (r1 r2 : Row) :
  save_calm e1 -> save_calm e2 -> save_name e2 = save_name e1 ->
  store w = Some s -> lookup (save_name e1) s = Some (Table rs) ->
  exists w1 w2,
    save_attendance_dataframe e1 (loc_append rs r1) (Handle h) w
    = (Ok tt, w1) /\
    partition (save_name e1) w1 = Some (rs ++ [r1])%list /\
    save_attendance_dataframe e2 (loc_append rs r2) (Handle h) w1
    = (Ok tt, w2) /\
    partition (save_name e1) w2 = Some (rs ++ [r2])%list.
Proof.
  intros Hs1 Hs2 Hn Hs Hl.
  assert (Hskip : forall (a : Row) (tl : list Row),
             (List.length tl <= 1)%nat ->
             (loc_append rs a ++ skipn (List.length (loc_append rs a))
                                  (rs ++ tl))%list = loc_append rs a).
  { intros a tl Htl. rewrite skipn_all2, app_nil_r; [reflexivity|].
    unfold loc_append. rewrite !length_app. simpl. lia. }
  set (out1 := (stdout w ++ [("Data absensi berhasil disimpan ke Google Sheet: "
                               ++ SHEET_TITLE ++ "/" ++ save_name e1)%string])%list).
  set (s1 := update (save_name e1) (Table (loc_append rs r1)) s).
  assert (Hsave1 : save_attendance_dataframe e1 (loc_append rs r1) (Handle h) w
                   = (Ok tt, mkWorld (Some s1) out1)).
  { rewrite (save_calm_run _ _ _ _ _ _ Hs1 Hs Hl). cbv beta iota.
    pose proof (Hskip r1 [] ltac:(simpl; lia)) as H1.
    rewrite app_nil_r in H1. now rewrite H1. }
  assert (Hlk : lookup (save_name e1) s1 = Some (Table (loc_append rs r1)))
    by exact (lookup_update _ _ _ _ Hl).
  assert (Hlk2 : lookup (save_name e2) s1 = Some (Table (loc_append rs r1)))
    by (rewrite Hn; exact Hlk).
  exists (mkWorld (Some s1) out1). eexists.
  split; [exact Hsave1|].
  split; [unfold partition; cbn [store]; now rewrite Hlk|].
  rewrite (save_calm_run e2 (loc_append rs r2) h (mkWorld (Some s1) out1)
             s1 _ Hs2 eq_refl Hlk2). cbv beta iota.
  unfold loc_append at 3. rewrite (Hskip r2 [r1] ltac:(simpl; lia)).
  split; [reflexivity|].
  unfold partition. cbn [store]. rewrite Hn.
  now rewrite (lookup_update _ _ _ _ Hlk).
Qed.

(** X12: when the clock reading of the save names a worksheet that does
    not exist (the day changed after the load) and the lookup of that
    worksheet itself does not fail, the scan of a new code still returns
    SUCCESS, the store is the one the load left, so the row is in no
    partition, and the name of the missing worksheet is printed. *)
Theorem save_to_missing_worksheet_loses_row (e : env) (qr : string)
    (gc : option client) (w w1 : world) (df : DataFrame)
    (h : spreadsheet_handle) (s1 : spreadsheet) (k n : string) :
  get_attendance_dataframe e gc w = (Ok (df, Handle h), w1) ->
  parse_qr_data qr = Some (k, n) ->
  isin k (map Kode df) = false ->
  f_save_worksheet e = None ->
  store w1 = Some s1 -> lookup (save_name e) s1 = None ->
  process_qrcode e qr gc w
  = (Ok (mkResult n (Some k) "SUCCESS" (time_now_hms e)
           (Some (recent_of (df ++ [mkRow k n (time_now_hms e)])%list))),
     mkWorld (store w1)
       (stdout w1 ++ ["Gagal menyimpan data ke GSheets: " ++ save_name e])).
Proof.
  intros Hload Hp Hin F Hs1 Hl.
  assert (Hg : load_failed df (Handle h) = false) by apply andb_false_r.
  destruct (scan_success _ _ _ _ _ _ _ _ _ Hload Hg Hp Hin) as (w2 & Hs & Hrun).
  rewrite save_run in Hs.
  assert (Hb : save_body e (loc_append df (mkRow k n (time_now_hms e)))
                 (Handle h) w1
               = (Raise (WorksheetNotFound (save_name e)), w1)).
  { unfold save_body, save_name in *.
    set (nm := get_weekly_worksheet_name (loc e) (now_save e)) in *.
    run_effects. rewrite F. now reduce_with Hs1 Hl. }
  rewrite Hb in Hs. injection Hs as <-. exact Hrun.
Qed.

End PartitionFacts.

(** ** The order of recent_attendance *)

Section RecencyFacts.

Import Pandas.

Lemma string_compare_lt_trans (a b c : string) :
  String.compare a b = Lt -> String.compare b c = Lt -> String.compare a c = Lt.
Proof.
  revert b c. induction a as [|x a IH]; intros [|y b] [|z c]; simpl;
    try discriminate; try reflexivity.
  unfold Ascii.compare.
  destruct (N.compare_spec (N_of_ascii x) (N_of_ascii y)) as [Exy|Lxy|Gxy];
    try discriminate;
    destruct (N.compare_spec (N_of_ascii y) (N_of_ascii z)) as [Eyz|Lyz|Gyz];
    try discriminate; intros H1 H2.
  - rewrite Exy, Eyz, N.compare_refl. now apply (IH b c).
  - rewrite Exy. now apply N.compare_lt_iff in Lyz as ->.
  - rewrite <- Eyz. now apply N.compare_lt_iff in Lxy as ->.
  - assert (N_of_ascii x < N_of_ascii z)%N as H by lia.
    now apply N.compare_lt_iff in H as ->.
Qed.

Lemma string_compare_refl (a : string) : String.compare a a = Eq.
Proof.
  induction a as [|x a IH]; simpl; [reflexivity|].
  unfold Ascii.compare. now rewrite N.compare_refl.
Qed.

Lemma string_leb_trans (a b c : string) :
  String.leb a b = true -> String.leb b c = true -> String.leb a c = true.
Proof.
  unfold String.leb.
  destruct (String.compare a b) eqn:Eab; try discriminate;
    destruct (String.compare b c) eqn:Ebc; try discriminate; intros _ _.
  - apply String.compare_eq_iff in Eab, Ebc. subst.
    now rewrite string_compare_refl.
  - apply String.compare_eq_iff in Eab. subst. now rewrite Ebc.
  - apply String.compare_eq_iff in Ebc. subst. now rewrite Eab.
  - now rewrite (string_compare_lt_trans _ _ _ Eab Ebc).
Qed.

Lemma sort_values_strongly_sorted (df : DataFrame) :
  StronglySorted later_first (sort_values_Waktu_desc df).
Proof.
  apply Sorted_StronglySorted; [|apply sort_values_sorted].
  intros a b c Hab Hbc. unfold later_first in *.
  exact (string_leb_trans _ _ _ Hbc Hab).
Qed.

Lemma strongly_sorted_split {A} (R : A -> A -> Prop) (l1 l2 : list A) :
  StronglySorted R (l1 ++ l2) ->
  forall a b, In a l1 -> In b l2 -> R a b.
Proof.
  induction l1 as [|x l1 IH]; simpl; intros Hs a b Ha Hb; [contradiction|].
  apply StronglySorted_inv in Hs as [Hs Hall].
  destruct Ha as [<- | Ha].
  - rewrite Forall_forall in Hall. apply Hall, in_or_app. now right.
  - now apply (IH Hs).
Qed.

(** X17: recent_attendance is the top ten by Waktu: the table splits into
    the rows shown, which are ten or all of them, and the rows left out,
    and no row left out has a larger Waktu than a row shown. *)
Theorem recent_is_top_ten (df : DataFrame) :
  exists shown rest,
    Permutation (shown ++ rest) df /\
    recent_of df = to_records shown /\
    List.length shown = Nat.min 10 (List.length df) /\
    forall a b, In a shown -> In b rest ->
                String.leb (Waktu b) (Waktu a) = true.
Proof.
  exists (firstn 10 (sort_values_Waktu_desc df)),
         (skipn 10 (sort_values_Waktu_desc df)).
  split; [rewrite firstn_skipn; apply sort_values_perm|].
  split; [reflexivity|]. split.
  - rewrite length_firstn.
    now rewrite (Permutation_length (sort_values_perm df)).
  - apply (strongly_sorted_split later_first).
    rewrite firstn_skipn. apply sort_values_strongly_sorted.
Qed.

Lemma insert_desc_below (r x : Row) (df : DataFrame) :
  String.leb (Waktu r) (Waktu x) = false ->
  insert_desc x (r :: df) = r :: insert_desc x df.
Proof. intros H. simpl. now rewrite H. Qed.

Lemma sort_values_newest_last (df : DataFrame) (r : Row) :
  (forall x, In x df -> String.leb (Waktu r) (Waktu x) = false) ->
  sort_values_Waktu_desc (df ++ [r])%list = r :: sort_values_Waktu_desc df.
Proof.
  intros H. unfold sort_values_Waktu_desc. rewrite fold_right_app.
  change (fold_right insert_desc [] [r]) with [r].
  induction df as [|x df IH]; [reflexivity|].
  cbn [fold_right]. rewrite IH by (intros y Hy; apply H; now right).
  apply insert_desc_below, H. now left.
Qed.

(** X18: a row whose Waktu is larger than every Waktu of the table is the
    first record of recent_attendance once it is appended. *)
Theorem newest_row_heads_recent (df : DataFrame) (k n t : string) :
  (forall x, In x df -> String.leb t (Waktu x) = false) ->
  exists tail,
    recent_of (loc_append df (mkRow k n t)) = mkRecent n t :: tail.
Proof.
  intros H. unfold recent_of, loc_append.
  rewrite (sort_values_newest_last df (mkRow k n t) H).
  eexists. reflexivity.
Qed.

End RecencyFacts.

(** ** The routes and the client *)

Section RouteFacts.

Import Pandas.

(** The [/] route runs one load and lists the recent rows of its table. *)
Lemma index_run (e : env) (gc : option client) (w : world) :
  index e gc w
  = match get_attendance_dataframe e gc w with
    | (Ok (df, _), w1) => (Ok (recent_of df), w1)
    | (Raise x, w1) => (Raise x, w1)
    end.
Proof.
  unfold index, bind.
  destruct (get_attendance_dataframe e gc w) as [[[df sh]|x] w1];
    [now destruct df | reflexivity].
Qed.

(** A load during which no remote call fails returns the rows of the
    partition of the day and changes nothing. *)
Lemma load_calm_partition (e : env) (c : client) (w : world) (rs : list Row) :
  load_calm e -> partition (load_name e) w = Some rs ->
  get_attendance_dataframe e (Some c) w = (Ok (rs, Handle Spreadsheet), w).
Proof.
  intros Hc Hp. unfold partition in Hp.
  destruct (store w) as [s|] eqn:Hs; [|discriminate].
  destruct (lookup (load_name e) s) as [[|rs']|] eqn:Hl; try discriminate.
  injection Hp as ->.
  destruct (load_calm_run e c w s Hc Hs) as (w1 & Hload).
  rewrite Hl in Hload.
  now rewrite (load_existing_unchanged _ _ _ _ _ _ _ Hs Hl Hload) in Hload.
Qed.

(** X13: the page shows what the scan reported: after a scan that returned
    a recent_attendance list and whose save went through, the [/] route
    on the same day lists exactly that list and changes nothing. *)
Theorem page_shows_what_scan_reported (e1 e2 : env) (qr : string)
    (c : client) (w w1 : world) (res : ScanResult) (l : list Recent) :
  save_calm e1 -> save_name e1 = load_name e1 ->
  load_calm e2 -> load_name e2 = load_name e1 ->
  process_qrcode e1 qr (Some c) w = (Ok res, w1) ->
  recent_attendance res = Some l ->
  index e2 (Some c) w1 = (Ok l, w1).
Proof.
  intros Hsv Hn1 Hc2 Hn2 Hrun Hl.
  assert (Hpart : exists rs, partition (load_name e2) w1 = Some rs /\
                             l = recent_of rs).
  { rewrite Hn2.
    apply scan_cases in Hrun as [(x & Hx & _) | Hrun]; [discriminate|].
    destruct Hrun as (df & sh & wl & Hload & [H | [H | [H | H]]]).
    - destruct H as (_ & _ & H). injection H as ->. discriminate.
    - destruct H as (_ & _ & _ & H). injection H as ->. discriminate.
    - destruct H as (k & n & r0 & rest & _ & _ & Hw & -> & H).
      injection H as ->. injection Hl as <-.
      assert (Hne : df <> []) by (intros ->; discriminate).
      destruct (load_rows_inv _ _ _ _ _ _ Hload Hne) as (_ & -> & Hp).
      now exists df.
    - destruct H as (k & n & Hg & _ & _ & Hsave & H).
      injection H as ->. injection Hl as <-.
      eexists. split; [|reflexivity].
      apply (save_after_load _ _ _ _ _ _ _ _ Hload Hg Hsv Hn1); [|exact Hsave].
      unfold loc_append. rewrite length_app. lia. }
  destruct Hpart as (rs & Hp & ->).
  rewrite index_run. now rewrite (load_calm_partition _ _ _ _ Hc2 Hp).
Qed.

(** X14: the [/] route does to the world what one load does, and it raises
    exactly the exception the load raises; when it returns, its list has at
    most ten records in descending order of Waktu. *)
Theorem index_follows_load (e : env) (gc : option client) (w w1 : world)
    (r : result (list Recent)) :
  index e gc w = (r, w1) ->
  exists r',
    get_attendance_dataframe e gc w = (r', w1) /\
    (forall x, r = Raise x <-> r' = Raise x) /\
    (forall l, r = Ok l ->
               (List.length l <= 10)%nat /\ Sorted recent_later_first l).
Proof.
  rewrite index_run.
  destruct (get_attendance_dataframe e gc w) as [[[df sh]|x] w2];
    intros H; injection H as <- <-; eexists; (split; [reflexivity|]); split.
  - intros x; split; discriminate.
  - intros l H. injection H as <-.
    split; [apply recent_of_length | apply recent_of_sorted].
  - intros y; split; intros H; injection H as <-; reflexivity.
  - discriminate.
Qed.

(** X16: [get_gspread_client] never raises and does not touch the store.
    It gives no client exactly when the credentials are absent, empty or
    rejected, and then one line is printed and every scan with that
    client is answered with CONNECTION_ERROR. *)
Theorem client_absent_iff (authorize : string -> string + client)
    (creds : option string) (w : world) :
  exists gc w1,
    get_gspread_client authorize creds w = (Ok gc, w1) /\
    store w1 = store w /\
    (gc = None <->
     creds = None \/ creds = Some "" \/
     exists s m, creds = Some s /\ authorize s = inl m) /\
    (gc = None ->
     (exists line, stdout w1 = (stdout w ++ [line])%list) /\
     forall e qr w',
       process_qrcode e qr gc w'
       = (Ok (mkResult "Gagal Koneksi GSheets" None "CONNECTION_ERROR"
                (time_now_hms e) None), w')) /\
    (gc <> None -> w1 = w).
Proof.
  unfold get_gspread_client.
  destruct creds as [[|a s]|].
  - do 2 eexists. split; [reflexivity|]. split; [reflexivity|].
    split; [split; auto|]. split; [|congruence].
    intros _. split; [eexists; reflexivity | reflexivity].
  - destruct (authorize (String a s)) as [m|gc] eqn:E.
    + do 2 eexists. split; [reflexivity|]. split; [reflexivity|].
      split; [split; eauto 6|]. split; [|congruence].
      intros _. split; [eexists; reflexivity | reflexivity].
    + do 2 eexists. split; [reflexivity|]. split; [reflexivity|].
      split; [|split; [discriminate | reflexivity]].
      split; [discriminate|].
      intros [H | [H | (s' & m & H & Hm)]]; try discriminate.
      injection H as <-. congruence.
  - do 2 eexists. split; [reflexivity|]. split; [reflexivity|].
    split; [split; auto|]. split; [|congruence].
    intros _. split; [eexists; reflexivity | reflexivity].
Qed.


End RouteFacts.

(** ** The shape of a partition name *)

Section NameShape.

Import Text Clock.

(** X15: for every clock reading and both locales the partition name has
    no comma (the separator of the format is gone), is not changed by
    [upper], and is the weekday name followed by eleven characters. *)
Theorem worksheet_name_clean (l : locale) (t : datetime) :
  contains "," (get_weekly_worksheet_name l t) = false /\
  upper (get_weekly_worksheet_name l t) = get_weekly_worksheet_name l t /\
  String.length (get_weekly_worksheet_name l t)
  = (String.length (day_name l (weekday t)) + 11)%nat.
Proof.
  rewrite worksheet_name_shape.
  destruct (strftime_dmY_plain t) as [Hu Hc].
  rewrite !contains_append, !upper_append, !length_append, upper_idem, Hu, Hc,
    day_name_plain, upper_length, strftime_dmY_length.
  simpl. repeat split.
Qed.

End NameShape.

(** ** The order of the recorded times *)

Section TimeOrder.

Import Text Clock.

Lemma digit_code (n : Z) : N_of_ascii (digit n) = Z.to_N (48 + n mod 10).
Proof.
  unfold digit. pose proof (Z.mod_pos_bound n 10 ltac:(lia)) as H.
  assert (n mod 10 = 0 \/ n mod 10 = 1 \/ n mod 10 = 2 \/ n mod 10 = 3 \/
          n mod 10 = 4 \/ n mod 10 = 5 \/ n mod 10 = 6 \/ n mod 10 = 7 \/
          n mod 10 = 8 \/ n mod 10 = 9) as Hc by lia.
  repeat (destruct Hc as [-> | Hc]; [reflexivity|]). now rewrite Hc.
Qed.

Lemma digit_compare (x y : Z) :
  Ascii.compare (digit x) (digit y) = Z.compare (x mod 10) (y mod 10).
Proof.
  unfold Ascii.compare. rewrite !digit_code.
  pose proof (Z.mod_pos_bound x 10 ltac:(lia)).
  pose proof (Z.mod_pos_bound y 10 ltac:(lia)).
  rewrite Z2N.inj_compare by lia. apply Z.add_compare_mono_l.
Qed.

Lemma strftime_HMS_compare (a b : datetime) :
  valid_time a -> valid_time b ->
  String.compare (strftime_HMS a) (strftime_HMS b)
  = Z.compare (seconds_of_day a) (seconds_of_day b).
Proof.
  intros (Ha1 & Ha2 & Ha3) (Hb1 & Hb2 & Hb3).
  unfold strftime_HMS, pad2, seconds_of_day. simpl.
  rewrite !digit_compare. change (Ascii.compare ":" ":") with Eq.
  cbv beta iota. symmetry.
  repeat match goal with
         | |- context [Z.compare (?x mod 10) (?y mod 10)] =>
             destruct (Z.compare_spec (x mod 10) (y mod 10))
         end;
    first [ apply Z.compare_eq_iff | apply Z.compare_lt_iff
          | apply Z.compare_gt_iff ];
    Z.div_mod_to_equations; lia.
Qed.

(** X19: for times of day, the string order of the recorded HH:MM:SS texts
    is the order of the times: one text is at most another exactly when
    its time is not later. *)
Theorem recorded_time_order (a b : datetime) :
  valid_time a -> valid_time b ->
  String.leb (strftime_HMS a) (strftime_HMS b)
  = (seconds_of_day a <=? seconds_of_day b).
Proof.
  intros Ha Hb. unfold String.leb, Z.leb.
  now rewrite (strftime_HMS_compare a b Ha Hb).
Qed.

Lemma recorded_time_order_witness :
  valid_time friday_0705 /\ valid_time friday_0706 /\
  String.leb "07:05:09" "07:06:00" = true /\
  String.leb "07:06:00" "07:05:09" = false.
Proof.
  assert (Ha : valid_time friday_0705) by (unfold valid_time; simpl; lia).
  assert (Hb : valid_time friday_0706) by (unfold valid_time; simpl; lia).
  split; [exact Ha|]. split; [exact Hb|]. split.
  - exact (recorded_time_order friday_0705 friday_0706 Ha Hb).
  - exact (recorded_time_order friday_0706 friday_0705 Hb Ha).
Defined.

End TimeOrder.

(** ** The further properties at the scenarios *)

Section Scenarios.

Import Pandas.



Lemma scan_keeps_stored_rows_witness :
  partition "JUMAT_24-10-2025" friday_world = Some [budi] /\
  exists added,
    partition "JUMAT_24-10-2025"
      (snd (process_qrcode second_scan "B2_SITI-AMINAH" (Some Client)
              friday_world))
    = Some ([budi] ++ added)%list /\
    (List.length added <= 1)%nat.
Proof.
  split; [reflexivity|].
  exact (scan_keeps_stored_rows second_scan "B2_SITI-AMINAH" (Some Client)
           friday_world _ _ [budi] eq_refl eq_refl eq_refl).
Defined.

Lemma scan_keeps_codes_unique_witness :
  NoDup (map Kode [budi]) /\
  exists rs',
    partition "JUMAT_24-10-2025"
      (snd (process_qrcode second_scan "B2_SITI-AMINAH" (Some Client)
              friday_world))
    = Some rs' /\ NoDup (map Kode rs').
Proof.
  assert (H : NoDup (map Kode [budi]))
    by (repeat constructor; simpl; tauto).
  split; [exact H|].
  exact (scan_keeps_codes_unique second_scan "B2_SITI-AMINAH" (Some Client)
           friday_world _ _ [budi] eq_refl eq_refl H eq_refl).
Defined.

Lemma scan_keeps_other_partitions_witness :
  sheet_of "KAMIS_23-10-2025"
    (snd (process_qrcode second_scan "B2_SITI-AMINAH" (Some Client)
            week_world))
  = Some (Table [ali]) /\
  sheet_of "JUMAT_24-10-2025"
    (snd (process_qrcode second_scan "B2_SITI-AMINAH" (Some Client)
            week_world))
  = Some (Table [budi; siti]).
Proof.
  split; [|reflexivity].
  refine (proj1 (scan_keeps_other_partitions second_scan "B2_SITI-AMINAH"
                   (Some Client) week_world _ _ "KAMIS_23-10-2025" _ _
                   eq_refl));
    intros H; vm_compute in H; discriminate H.
Defined.

Lemma load_creates_partition_once_witness :
  sheet_of "JUMAT_24-10-2025" fresh_world = None /\
  exists w1,
    get_attendance_dataframe first_scan (Some Client) fresh_world
    = (Ok ([], Handle Spreadsheet), w1) /\
    partition "JUMAT_24-10-2025" w1 = Some [] /\
    get_attendance_dataframe second_scan (Some Client) w1
    = (Ok ([], Handle Spreadsheet), w1).
Proof.
  split; [reflexivity|].
  destruct (load_creates_partition_once first_scan second_scan Client
              fresh_world [])
    as (w1 & H1 & H2 & _ & H4); try reflexivity; try (repeat split).
  exists w1. auto.
Defined.

Lemma header_failure_leaves_blank_sheet_witness :
  get_attendance_dataframe failing_header (Some Client) fresh_world
  = (Raise (APIError "429 Too Many Requests"),
     mkWorld (Some [("JUMAT_24-10-2025", Blank)]) []) /\
  get_attendance_dataframe second_scan (Some Client)
    (mkWorld (Some [("JUMAT_24-10-2025", Blank)]) [])
  = (Ok ([], Handle Spreadsheet),
     mkWorld (Some [("JUMAT_24-10-2025", Blank)]) []).
Proof.
  apply (header_failure_leaves_blank_sheet failing_header second_scan Client
           fresh_world [] "429 Too Many Requests");
    try reflexivity; repeat split.
Defined.

Lemma save_then_load_round_trip_witness :
  exists w1,
    save_attendance_dataframe second_scan [budi; siti] (Handle Spreadsheet)
      friday_world = (Ok tt, w1) /\
    partition "JUMAT_24-10-2025" w1 = Some [budi; siti] /\
    get_attendance_dataframe second_scan (Some Client) w1
    = (Ok ([budi; siti], Handle Spreadsheet), w1).
Proof.
  apply (save_then_load_round_trip second_scan second_scan Client Spreadsheet
           friday_world [("JUMAT_24-10-2025", Table [budi])] (Table [budi])
           [budi; siti]);
    try reflexivity; try (repeat split).
  intros rs H. injection H as <-. simpl. lia.
Defined.

Lemma later_save_overwrites_witness :
  exists w1 w2,
    save_attendance_dataframe first_scan [budi; ali] (Handle Spreadsheet)
      friday_world = (Ok tt, w1) /\
    partition "JUMAT_24-10-2025" w1 = Some [budi; ali] /\
    save_attendance_dataframe second_scan [budi; siti] (Handle Spreadsheet)
      w1 = (Ok tt, w2) /\
    partition "JUMAT_24-10-2025" w2 = Some [budi; siti].
Proof.
  apply (later_save_overwrites first_scan second_scan Spreadsheet friday_world
           [("JUMAT_24-10-2025", Table [budi])] [budi] ali siti);
    try reflexivity; repeat split.
Defined.

Lemma save_to_missing_worksheet_loses_row_witness :
  process_qrcode midnight_scan "B2_SITI-AMINAH" (Some Client) friday_world
  = (Ok (mkResult "SITI AMINAH" (Some "B2") "SUCCESS" "23:59:59"
           (Some [mkRecent "SITI AMINAH" "23:59:59";
                  mkRecent "BUDI SANTOSO" "07:05:09"])),
     mkWorld (Some [("JUMAT_24-10-2025", Table [budi])])
       ["Gagal menyimpan data ke GSheets: SABTU_25-10-2025"]).
Proof.
  exact (save_to_missing_worksheet_loses_row midnight_scan "B2_SITI-AMINAH"
           (Some Client) friday_world friday_world [budi] Spreadsheet
           [("JUMAT_24-10-2025", Table [budi])] "B2" "SITI AMINAH"
           eq_refl eq_refl eq_refl eq_refl eq_refl eq_refl).
Defined.

Lemma page_shows_what_scan_reported_witness :
  process_qrcode first_scan "A1_BUDI-SANTOSO" (Some Client) fresh_world
  = (Ok (mkResult "BUDI SANTOSO" (Some "A1") "SUCCESS" "07:05:09"
           (Some [mkRecent "BUDI SANTOSO" "07:05:09"])), saved_world) /\
  index second_scan (Some Client) saved_world
  = (Ok [mkRecent "BUDI SANTOSO" "07:05:09"], saved_world).
Proof.
  split; [reflexivity|].
  apply (page_shows_what_scan_reported first_scan second_scan
           "A1_BUDI-SANTOSO" Client fresh_world saved_world
           (mkResult "BUDI SANTOSO" (Some "A1") "SUCCESS" "07:05:09"
              (Some [mkRecent "BUDI SANTOSO" "07:05:09"])));
    try reflexivity; repeat split.
Defined.

Lemma index_follows_load_witness :
  index first_scan (Some Client) (mkWorld None [])
  = (Raise SpreadsheetNotFound, mkWorld None []) /\
  exists r',
    get_attendance_dataframe first_scan (Some Client) (mkWorld None [])
    = (r', mkWorld None []) /\
    r' = Raise SpreadsheetNotFound.
Proof.
  split; [reflexivity|].
  destruct (index_follows_load first_scan (Some Client) (mkWorld None [])
              (mkWorld None []) (Raise SpreadsheetNotFound) eq_refl)
    as (r' & H1 & H2 & _).
  exists r'. split; [exact H1|]. now apply H2.
Defined.

Lemma newest_row_heads_recent_witness :
  (forall x, In x [budi] -> String.leb "07:06:00" (Waktu x) = false) /\
  exists tail,
    recent_of (loc_append [budi] (mkRow "B2" "SITI AMINAH" "07:06:00"))
    = mkRecent "SITI AMINAH" "07:06:00" :: tail.
Proof.
  assert (H : forall x, In x [budi] ->
                        String.leb "07:06:00" (Waktu x) = false)
    by (intros x [<- | []]; reflexivity).
  split; [exact H|].
  exact (newest_row_heads_recent [budi] "B2" "SITI AMINAH" "07:06:00" H).
Defined.

End Scenarios.
